(** * Dendron configuration engine: resolver, store, hook-list editor

    A shallow embedding of
    - [packages/engine-server/src/config.ts]        (class [DConfig])
    - [packages/engine-server/src/topics/hooks.ts]  (class [HookUtils])
    - [packages/common-all/src/types/intermediateConfigs.ts]
    together with the properties of the configuration specification that
    concern them.

    Conventions of the embedding.
    - A JavaScript value is a tree ([value]); an object is a finite map from
      property names to values.  Trees have no sharing: where the code
      mutates an object or an array in place, the function of the embedding
      returns the mutated tree next to its result.
    - Numbers are integers; strings are byte strings.
    - Prototype properties ([toString], [constructor], array methods) are not
      part of the model: reading one yields [undefined].
    - A property path is a dotted string; lodash's bracket syntax ([a[0].b])
      is not part of the model. *)

From stdpp Require Import gmap strings list fin_maps.
From Stdlib Require Import ZArith Ascii String.

#[local] Set Warnings "-register-all".
#[local] Open Scope string_scope.

(** ** JavaScript values *)

Inductive value : Type :=
| VUndefined
| VNull
| VBool (b : bool)
| VNum (n : Z)
| VStr (s : string)
| VArr (l : list value)
| VObj (m : gmap string value).

(** A JavaScript object: own enumerable string-keyed properties. *)
Abbreviation obj := (gmap string value).

Module JS.

(** [ToBoolean]: what [if (v)], [!v], [a || b] test. *)
Definition truthy (v : value) : bool :=
  match v with
  | VUndefined | VNull => false
  | VBool b => b
  | VNum n => negb (n =? 0)%Z
  | VStr s => negb (String.eqb s "")
  | VArr _ | VObj _ => true
  end.

(** [v == null] *)
Definition nullish (v : value) : bool :=
  match v with VUndefined | VNull => true | _ => false end.

(** [v === n] for a number literal [n]. *)
Definition is_num (v : value) (n : Z) : bool :=
  match v with VNum m => (m =? n)%Z | _ => false end.

(** [v === s] for a string [s]. *)
Definition is_str (v : value) (s : string) : bool :=
  match v with VStr t => String.eqb t s | _ => false end.

Definition digit_of (a : ascii) : option nat :=
  let n := nat_of_ascii a in
  if (48 <=? n)%nat && (n <=? 57)%nat then Some (n - 48)%nat else None.

Fixpoint parse_digits (s : string) (acc : nat) : option nat :=
  match s with
  | EmptyString => Some acc
  | String a rest =>
      match digit_of a with
      | Some d => parse_digits rest (10 * acc + d)%nat
      | None => None
      end
  end.

(** A property name that is a canonical array index: ["0"], ["7"], ["12"],
    not ["01"], not [""]. *)
Definition array_index (k : string) : option nat :=
  match k with
  | EmptyString => None
  | String "0" EmptyString => Some 0%nat
  | String "0" _ => None
  | _ => parse_digits k 0
  end.

Fixpoint string_nth (s : string) (i : nat) : option string :=
  match s, i with
  | EmptyString, _ => None
  | String a _, O => Some (String a EmptyString)
  | String _ rest, S j => string_nth rest j
  end.

(** [v[k]] on a value that is neither [null] nor [undefined]. *)
Definition prop (v : value) (k : string) : value :=
  match v with
  | VObj m => default VUndefined (m !! k)
  | VArr l =>
      if String.eqb k "length" then VNum (Z.of_nat (List.length l))
      else match array_index k with
           | Some i => default VUndefined (l !! i)
           | None => VUndefined
           end
  | VStr s =>
      if String.eqb k "length" then VNum (Z.of_nat (String.length s))
      else match array_index k with
           | Some i => default VUndefined (VStr <$> string_nth s i)
           | None => VUndefined
           end
  | _ => VUndefined
  end.

(** [k in Object(v)] *)
Definition has_prop (v : value) (k : string) : bool :=
  match v with
  | VObj m => bool_decide (is_Some (m !! k))
  | VArr l =>
      String.eqb k "length"
      || match array_index k with Some i => (i <? List.length l)%nat | None => false end
  | VStr s =>
      String.eqb k "length"
      || match array_index k with Some i => (i <? String.length s)%nat | None => false end
  | _ => false
  end.

(** An object literal [{k1: v1, ..., kn: vn}] with distinct keys. *)
Definition literal (fields : list (string * value)) : obj := list_to_map fields.

(** [{...a, ...b}]: the properties of [a], overridden by those of [b]. *)
Definition spread (a b : obj) : obj := b ∪ a.

(** A property key: [o[undefined]] reads the property named "undefined". *)
Definition toKey (k : option string) : string := default "undefined" k.

End JS.

(** ** The lodash functions the code calls *)

Module Lodash.

Definition isUndefined (v : value) : bool :=
  match v with VUndefined => true | _ => false end.

Definition has_dot (s : string) : bool :=
  existsb (Ascii.eqb ".") (list_ascii_of_string s).

(** [stringToPath] on a string without brackets: the segments between
    the dots. *)
Fixpoint stringToPath (s : string) : list string :=
  match s with
  | EmptyString => [""]
  | String c rest =>
      if Ascii.eqb c "." then "" :: stringToPath rest
      else match stringToPath rest with
           | seg :: segs => String c seg :: segs
           | [] => [String c ""]
           end
  end.

(** [castPath(path, object)]: a string that is not "deep", or that names a
    property of [object] as it stands, is a single key. *)
Definition castPath (path : string) (object : value) : list string :=
  if negb (has_dot path) || JS.has_prop object path then [path]
  else stringToPath path.

(** [baseGet]'s loop: stop at [null]/[undefined]; the result counts only
    when every segment was consumed. *)
Fixpoint walk (object : value) (path : list string) : value :=
  match path with
  | [] => object
  | k :: rest =>
      if JS.nullish object then VUndefined
      else walk (JS.prop object k) rest
  end.

Definition baseGet (object : value) (path : string) : value :=
  walk object (castPath path object).

(** [_.get(object, path, defaultValue)] *)
Definition get_default (object : value) (path : string) (defaultValue : value) : value :=
  let result := if JS.nullish object then VUndefined else baseGet object path in
  if isUndefined result then defaultValue else result.

(** [_.get(object, path)] *)
Definition get (object : value) (path : string) : value :=
  get_default object path VUndefined.

(** [_.defaults(object, source)]: every property of [source] whose value in
    [object] resolves to [undefined] is assigned to [object]; the mutated
    [object] is returned. *)
Definition defaults (object source : obj) : obj :=
  union_with (λ o s, Some (if isUndefined o then s else o)) object source.

(** [_.matches({id: hookId})] *)
Definition matches_id (hookId : string) (entry : value) : bool :=
  match entry with
  | VObj m => JS.is_str (default VUndefined (m !! "id")) hookId
  | _ => false
  end.

(** [_.remove(array, {id: hookId})]: the array is mutated to keep the
    entries that do not match, and a new array of the removed (matching)
    entries is returned.  First component: the array after the call;
    second: the returned array.  A value that is not an array has no
    matching element and is left alone. *)
Definition remove (array : value) (hookId : string) : value * list value :=
  match array with
  | VArr l => (VArr (filter (λ e, negb (matches_id hookId e) = true) l),
               filter (λ e, matches_id hookId e = true) l)
  | _ => (array, [])
  end.

(** [_.findIndex(array, {id: hookId})]: index of the first match, or -1. *)
Fixpoint findIndex (array : list value) (hookId : string) : Z :=
  match array with
  | [] => (-1)%Z
  | e :: rest =>
      if matches_id hookId e then 0%Z
      else let i := findIndex rest hookId in
           if (i <? 0)%Z then (-1)%Z else (i + 1)%Z
  end.

(** [_.size(collection)] *)
Definition size (collection : value) : nat :=
  match collection with
  | VArr l => List.length l
  | VStr s => String.length s
  | VObj m => base.size m
  | _ => 0
  end.

End Lodash.

(** [Array.prototype.splice(start, 1)] used as a statement: a negative
    [start] counts from the end (clamped at 0); one element is deleted when
    the position exists. *)
Definition splice1 (array : list value) (start : Z) : list value :=
  let len := Z.of_nat (List.length array) in
  let from := if (start <? 0)%Z then Z.max (len + start) 0 else Z.min start len in
  delete (Z.to_nat from) array.

(** ** Exceptions and outcomes *)

(** [ERROR_STATUS] of common-all; only the member this code raises. *)
Inductive ERROR_STATUS := INVALID_CONFIG.

Inductive exn : Type :=
| ThrownString (s : string)                               (* throw `...` *)
| DendronError (status : ERROR_STATUS) (message : string) (* DendronError.createFromStatus *)
| ENOENT (path : string)                                  (* fs: no such file *)
| TypeError.                                              (* property access on a non-object *)

Inductive outcome (A : Type) : Type :=
| Ok (a : A)
| Throw (e : exn).
Arguments Ok {A} a.
Arguments Throw {A} e.

(** ** What the code imports from elsewhere *)

(** Helpers and constants of [@dendronhq/common-all] and of Node that the
    two classes use and whose definitions lie outside these files. *)
Class Collaborators := {
  genDefaultCommandConfig : value;
  genDefaultWorkspaceConfig : value;
  LegacyLookupSelectionType_selectionExtract : value;
  LegacyNoteAddBehavior_childOfDomain : value;
  LegacyNoteAddBehavior_asOwnDomain : value;
  DENDRON_CONFIG_FILE : string;          (* CONSTANTS.DENDRON_CONFIG_FILE *)
  path_join : string → string → string;  (* path.join *)
}.

(** The world the store operations act on: the files (a YAML document is
    identified with the mapping it parses to), the clock reading already
    formatted by [Time.now().toFormat("yyyy.MM.dd.HHmmssS")], the [SITE_URL]
    environment variable and the execution stage of [getStage()]. *)
Record world := World {
  files : gmap string obj;
  today : string;
  env_SITE_URL : option string;
  stage : string;
}.

Definition with_files (w : world) (fs : gmap string obj) : world :=
  {| files := fs; today := today w; env_SITE_URL := env_SITE_URL w; stage := stage w |}.

(** The Legacy Path Registry. *)
Definition requiredPathsMap : list (string * string) :=
  [ ("commands.insertNote.initialValue", "defaultInsertHierarchy");
    ("commands.insertNoteLink", "insertNoteLink");
    ("commands.insertNoteIndex", "insertNoteIndex");
    ("commands.randomNote", "randomNote");
    ("commands.lookup", "lookup");
    ("workspace.journal", "journal");
    ("workspace.vaults", "vaults") ].

(** [Map.prototype.get] and [Map.prototype.has] on the registry. *)
Fixpoint map_get (m : list (string * string)) (k : string) : option string :=
  match m with
  | [] => None
  | (k', v) :: rest => if String.eqb k' k then Some v else map_get rest k
  end.

Definition map_has (m : list (string * string)) (k : string) : bool :=
  match map_get m k with Some _ => true | None => false end.

Definition CURRENT_CONFIG_VERSION : Z := 3.

Module DConfig.
Section WithCollaborators.
Context `{Collaborators}.

Definition configPath (configRoot : string) : string :=
  path_join configRoot DENDRON_CONFIG_FILE.

Definition common : obj :=
  JS.literal
    [ ("useFMTitle", VBool true);
      ("useNoteTitleForLink", VBool true);
      ("noLegacyNoteRef", VBool true);
      ("mermaid", VBool true);
      ("useKatex", VBool true);
      ("usePrettyRefs", VBool true);
      ("dev", VObj (JS.literal [ ("enablePreviewV2", VBool true) ]));
      ("site", VObj (JS.literal
         [ ("copyAssets", VBool true);
           ("siteHierarchies", VArr [VStr "root"]);
           ("siteRootDir", VStr "docs");
           ("usePrettyRefs", VBool true);
           ("title", VStr "Dendron");
           ("description", VStr "Personal knowledge space");
           ("siteLastModified", VBool true);
           ("gh_edit_branch", VStr "main") ])) ].

Definition omittedFromV2 : obj :=
  JS.literal
    [ ("lookupConfirmVaultOnCreate", VBool false);
      ("lookup", VObj (JS.literal
         [ ("note", VObj (JS.literal
              [ ("selectionType", LegacyLookupSelectionType_selectionExtract);
                ("leaveTrace", VBool false) ])) ])) ].

Definition omittedFromV3 : obj :=
  JS.literal
    [ ("vaults", VArr []);
      ("journal", VObj (JS.literal
         [ ("dailyDomain", VStr "daily");
           ("name", VStr "journal");
           ("dateFormat", VStr "y.MM.dd");
           ("addBehavior", LegacyNoteAddBehavior_childOfDomain);
           ("firstDayOfWeek", VNum 1) ]));
      ("scratch", VObj (JS.literal
         [ ("name", VStr "scratch");
           ("dateFormat", VStr "y.MM.dd.HHmmss");
           ("addBehavior", LegacyNoteAddBehavior_asOwnDomain) ]));
      ("noAutoCreateOnDefinition", VBool true);
      ("noXVaultWikiLink", VBool true);
      ("autoFoldFrontmatter", VBool true);
      ("maxPreviewsCached", VNum 10) ].

(** [genDefaultConfig(version?)].  In an object literal a later property
    or spread overrides an earlier one. *)
Definition genDefaultConfig (version : option Z) : obj :=
  let version := match version with None => 1%Z | Some v => v end in
  if (version =? 3)%Z then
    <["workspace" := genDefaultWorkspaceConfig]>
      (<["commands" := genDefaultCommandConfig]>
         (JS.spread {[ "version" := VNum 3 ]} common))
  else if (version =? 2)%Z then
    <["commands" := genDefaultCommandConfig]>
      (JS.spread (JS.spread {[ "version" := VNum 2 ]} common) omittedFromV3)
  else
    JS.spread (JS.spread (JS.spread {[ "version" := VNum 1 ]} common) omittedFromV3)
              omittedFromV2.

(** [getOrCreate(dendronRoot, defaults?)]: the world after the call and
    the returned config. *)
Definition getOrCreate (w : world) (dendronRoot : string) (defaults : option obj)
  : world * obj :=
  let configPath := configPath dendronRoot in
  let config := JS.spread (default ∅ defaults) (genDefaultConfig None) in
  match files w !! configPath with
  | None => (with_files w (<[configPath := config]> (files w)), config)
  | Some onDisk => (w, JS.spread config onDisk)
  end.

(** [getProp(config, key)]: [_.defaults] writes into [config] itself, so
    the config after the call is returned with the value. *)
Definition getProp (config : obj) (key : string) : obj * value :=
  let cConfig := Lodash.defaults config (genDefaultConfig None) in
  (cConfig, JS.prop (VObj cConfig) key).

(** [getSiteIndex(sconfig)]: [siteIndex || siteHierarchies[0]]. *)
Definition getSiteIndex (sconfig : obj) : value :=
  let siteIndex := JS.prop (VObj sconfig) "siteIndex" in
  let siteHierarchies := JS.prop (VObj sconfig) "siteHierarchies" in
  if JS.truthy siteIndex then siteIndex else JS.prop siteHierarchies "0".

Definition siteDefaults : obj :=
  JS.literal
    [ ("copyAssets", VBool true);
      ("usePrettyRefs", VBool true);
      ("siteNotesDir", VStr "notes");
      ("siteFaviconPath", VStr "favicon.ico");
      ("gh_edit_link", VBool true);
      ("gh_edit_link_text", VStr "Edit this page on GitHub");
      ("gh_edit_branch", VStr "main");
      ("gh_root", VStr "docs/");
      ("gh_edit_view_mode", VStr "edit");
      ("writeStubs", VBool true);
      ("description", VStr "Personal knowledge space") ].

Definition siteUrl_message : string :=
  "siteUrl is undefined. See https://dendron.so/notes/f2ed8639-a604-4a9d-b76c-41e205fb8713.html#siteurl for more details".

(** [process.env[name]] as a value. *)
Definition env_value (e : option string) : value :=
  match e with Some s => VStr s | None => VUndefined end.

(** [cleanSiteConfig(config)]: the config after [_.defaults] wrote into
    it, and the outcome. *)
Definition cleanSiteConfig (w : world) (config : obj) : obj * outcome obj :=
  let out := Lodash.defaults config siteDefaults in
  let siteRootDir := JS.prop (VObj out) "siteRootDir" in
  let siteHierarchies := JS.prop (VObj out) "siteHierarchies" in
  let siteUrl := JS.prop (VObj out) "siteUrl" in
  let siteUrl :=
    if JS.truthy (env_value (env_SITE_URL w)) then env_value (env_SITE_URL w)
    else siteUrl in
  if negb (JS.truthy siteRootDir) then
    (out, Throw (ThrownString "siteRootDir is undefined"))
  else
    let siteUrl :=
      if negb (JS.truthy siteUrl) && String.eqb (stage w) "dev"
      then VStr "https://foo" else siteUrl in
    if negb (JS.truthy siteUrl) then
      (out, Throw (DendronError INVALID_CONFIG siteUrl_message))
    else if (Lodash.size siteHierarchies <? 1)%nat then
      (out, Throw (DendronError INVALID_CONFIG
                     "siteHiearchies must have at least one hiearchy"))
    else
      let siteIndex := getSiteIndex out in
      (out, Ok (<["siteUrl" := siteUrl]> (<["siteIndex" := siteIndex]> out))).

(** [createBackup(wsRoot, infix)] *)
Definition backupName (today infix : string) : string :=
  let prefix := "dendron." ++ today ++ "." in
  let suffix := "yml" in
  let maybeInfix := if JS.truthy (VStr infix) then infix ++ "." else "" in
  prefix ++ maybeInfix ++ suffix.

Definition createBackup (w : world) (wsRoot infix : string) : world * outcome string :=
  let configPath := configPath wsRoot in
  let backupPath := path_join wsRoot (backupName (today w) infix) in
  (* fs.copyFileSync(configPath, backupPath) *)
  match files w !! configPath with
  | None => (w, Throw (ENOENT configPath))
  | Some content => (with_files w (<[backupPath := content]> (files w)), Ok backupPath)
  end.

Definition getLegacyConfig (config : obj) (path : string) : obj * value :=
  let mappedLegacyConfigKey := map_get requiredPathsMap path in
  getProp config (JS.toKey mappedLegacyConfigKey).

Definition isRequired (path : string) : bool := map_has requiredPathsMap path.

Definition isCurrentConfig (config : obj) : bool :=
  JS.is_num (JS.prop (VObj config) "version") CURRENT_CONFIG_VERSION.

(** [getConfig(config, path)]: the config after the call (only the legacy
    branch writes into it) and the returned value. *)
Definition getConfig (config : obj) (path : string) : obj * value :=
  let value := Lodash.get (VObj config) path in
  if JS.truthy value then (config, value)
  else if Lodash.isUndefined value && negb (isCurrentConfig config) then
    if JS.is_num (JS.prop (VObj config) "version") 2 then
      if isRequired path
      then (config, Lodash.get (VObj (genDefaultConfig (Some 2%Z))) path)
      else (config, VUndefined)
    else getLegacyConfig config path
  else if Lodash.isUndefined value && isRequired path then
    (config, Lodash.get (VObj (genDefaultConfig (Some 3%Z))) path)
  else (config, VUndefined).

(** [defaults(config)]: the remote-vault flag of the config's version,
    written into [config] when it is not set. *)
Definition defaults (config : obj) : obj :=
  let extra : obj :=
    if JS.is_num (JS.prop (VObj config) "version") 3
    then {[ "enableRemoteVaultInit" := VBool true ]}
    else {[ "initializeRemoteVaults" := VBool true ]} in
  Lodash.defaults config extra.

(** [getRaw(wsRoot)]: [readYAML] of the config path, no defaulting; reading
    a file that does not exist throws. *)
Definition getRaw (w : world) (wsRoot : string) : outcome obj :=
  let configPath := configPath wsRoot in
  match files w !! configPath with
  | Some config => Ok config
  | None => Throw (ENOENT configPath)
  end.

(** [writeConfig({wsRoot, config})] *)
Definition writeConfig (w : world) (wsRoot : string) (config : obj) : world :=
  let configPath := configPath wsRoot in
  with_files w (<[configPath := config]> (files w)).

End WithCollaborators.
End DConfig.

(** ** [ConfigUtils] ([config.ts]) *)

Module ConfigUtils.




End ConfigUtils.

(** ** Schema model ([intermediateConfigs.ts]) *)

Module Schema.

(** [IntermediateDendronConfig]: every key is optional except those of
    [Required<Pick<DendronConfigV1, "version" | "site">>]. *)
Definition IntermediateDendronConfig : list string := ["version"; "site"].

(** The keys the strict types add as required; each also pins [version]. *)
Definition StrictV1 : list string := IntermediateDendronConfig ++ ["journal"; "vaults"].
Definition StrictV2 : list string := IntermediateDendronConfig.
Definition StrictV3 : list string := IntermediateDendronConfig.

Definition required (version : Z) : list string :=
  if (version =? 3)%Z then StrictV3
  else if (version =? 2)%Z then StrictV2
  else StrictV1.

(** A field is present when it is an own property whose value is not
    [undefined]. *)
Definition present (config : obj) (key : string) : bool :=
  match config !! key with
  | Some v => negb (Lodash.isUndefined v)
  | None => false
  end.

(** Structurally complete for [version]: the discriminant is [version]
    and every required field is present. *)
Definition complete (version : Z) (config : obj) : bool :=
  JS.is_num (JS.prop (VObj config) "version") version
  && forallb (present config) (required version).

End Schema.

(** ** Hook-list editor ([hooks.ts]) *)

Module HookUtils.

(** In-place update of the value reached by [Lodash.walk]: the array that
    [_.remove] mutates is the one stored under the path. *)
Fixpoint put (object : value) (path : list string) (new : value) : value :=
  match path with
  | [] => new
  | k :: rest =>
      match object with
      | VObj m =>
          match m !! k with
          | Some child => VObj (<[k := put child rest new]> m)
          | None => object
          end
      | VArr l =>
          match JS.array_index k with
          | Some i =>
              match l !! i with
              | Some child => VArr (<[i := put child rest new]> l)
              | None => object
              end
          | None => object
          end
      | _ => object
      end
  end.

(** Lines 75-87 of [removeFromConfig] on the hook container
    [hooksConfig]: the container after the call and the list that is
    stored back.

    [onCreate] is read with [_.get]; the container is installed
    ([hooks || {onCreate: []}]); [_.remove] empties the stored array of
    the matching entries and RETURNS the matching entries, which are
    assigned to [onCreate]; [findIndex]/[splice] then delete one entry of
    that returned list. *)
Definition removeFromHooks (hooksConfig : value) (hookType hookId : string)
  : value * list value :=
  let found := Lodash.get hooksConfig hookType in
  let onCreate := Lodash.get_default hooksConfig hookType (VArr []) in
  let container :=
    if JS.truthy hooksConfig then hooksConfig
    else VObj (JS.literal [ ("onCreate", VArr []) ]) in
  let '(mutated, removed) := Lodash.remove onCreate hookId in
  let container :=
    if JS.truthy hooksConfig && negb (Lodash.isUndefined found)
    then put container (Lodash.castPath hookType hooksConfig) mutated
    else container in
  let idx := Lodash.findIndex removed hookId in
  (container, splice1 removed idx).

(** [container.onCreate = onCreate]: assignment to a property of a
    primitive throws in strict mode.  (An array-valued container is
    outside the config types and is rejected by the model as well.) *)
Definition assign_onCreate (container : value) (onCreate : list value) : outcome value :=
  match container with
  | VObj h => Ok (VObj (<["onCreate" := VArr onCreate]> h))
  | _ => Throw TypeError
  end.

(** [removeFromConfig({config, hookType, hookId})]: the mutated (and
    returned) config, or the [TypeError] of [config.workspace!.hooks] when
    a version-3 config has no workspace object. *)
Definition removeFromConfig (config : obj) (hookType hookId : string) : outcome obj :=
  if JS.is_num (JS.prop (VObj config) "version") 3 then
    match JS.prop (VObj config) "workspace" with
    | VObj workspace =>
        let hooksConfig := JS.prop (VObj workspace) "hooks" in
        let '(container, onCreate) := removeFromHooks hooksConfig hookType hookId in
        match assign_onCreate container onCreate with
        | Ok hooks => Ok (<["workspace" := VObj (<["hooks" := hooks]> workspace)]> config)
        | Throw e => Throw e
        end
    | _ => Throw TypeError
    end
  else
    let hooksConfig := JS.prop (VObj config) "hooks" in
    let '(container, onCreate) := removeFromHooks hooksConfig hookType hookId in
    match assign_onCreate container onCreate with
    | Ok hooks => Ok (<["hooks" := hooks]> config)
    | Throw e => Throw e
    end.

(** The list stored under [hookType] before the call, as [_.get] with the
    default [[]] reads it. *)
Definition hookList (config : obj) (hookType : string) : list value :=
  let hooksConfig :=
    if JS.is_num (JS.prop (VObj config) "version") 3
    then JS.prop (JS.prop (VObj config) "workspace") "hooks"
    else JS.prop (VObj config) "hooks" in
  match Lodash.get_default hooksConfig hookType (VArr []) with
  | VArr l => l
  | _ => []
  end.

(** The [onCreate] list of the hook container after a call. *)
Definition storedOnCreate (config : obj) : value :=
  let hooksConfig :=
    if JS.is_num (JS.prop (VObj config) "version") 3
    then JS.prop (JS.prop (VObj config) "workspace") "hooks"
    else JS.prop (VObj config) "hooks" in
  JS.prop hooksConfig "onCreate".

(** The hook container can take the assignment: a version-3 config has a
    workspace object, and the container is absent (falsy) or an object. *)
Definition container_ok (config : obj) : bool :=
  let ok (hooks : value) :=
    match hooks with VObj _ => true | _ => negb (JS.truthy hooks) end in
  if JS.is_num (JS.prop (VObj config) "version") 3 then
    match JS.prop (VObj config) "workspace" with
    | VObj workspace => ok (JS.prop (VObj workspace) "hooks")
    | _ => false
    end
  else ok (JS.prop (VObj config) "hooks").

(** What the specification intends: every entry whose id is [hookId]
    removed, the others kept in order. *)
Definition without_id (hookId : string) (l : list value) : list value :=
  filter (λ e, Lodash.matches_id hookId e = false) l.

(** The entries whose id is [hookId]. *)
Definition with_id (hookId : string) (l : list value) : list value :=
  filter (λ e, Lodash.matches_id hookId e = true) l.

(** The hook container a config's version selects. *)
Definition hooksConfig_of (config : obj) : value :=
  if JS.is_num (JS.prop (VObj config) "version") 3
  then JS.prop (JS.prop (VObj config) "workspace") "hooks"
  else JS.prop (VObj config) "hooks".

(** The name of the top-level field that holds the hook container. *)
Definition container_field (config : obj) : string :=
  if JS.is_num (JS.prop (VObj config) "version") 3 then "workspace" else "hooks".

(** [found.concat([hookEntry])]: array concatenation on an array; on a
    string, string concatenation with [String([hookEntry])]; any other value
    has no [concat] method. *)
Definition concat_entry (found : value) (hookEntry : obj) : outcome value :=
  match found with
  | VArr l => Ok (VArr (l ++ [VObj hookEntry]))
  | VStr s => Ok (VStr (s ++ "[object Object]"))
  | _ => Throw TypeError
  end.

(** [container.onCreate = onCreate] for any value [onCreate]. *)
Definition assign_onCreate_value (container : value) (onCreate : value) : outcome value :=
  match container with
  | VObj h => Ok (VObj (<["onCreate" := onCreate]> h))
  | _ => Throw TypeError
  end.

(** Lines 34-46 of [addToConfig] on the hook container: the list read for
    [hookType] with the entry appended, stored as [onCreate] of the
    installed container. *)
Definition addToHooks (hooksConfig : value) (hookType : string) (hookEntry : obj)
  : outcome value :=
  match concat_entry (Lodash.get_default hooksConfig hookType (VArr [])) hookEntry with
  | Ok onCreate =>
      let container :=
        if JS.truthy hooksConfig then hooksConfig
        else VObj (JS.literal [ ("onCreate", VArr []) ]) in
      assign_onCreate_value container onCreate
  | Throw e => Throw e
  end.

(** [addToConfig({config, hookType, hookEntry})] *)
Definition addToConfig (config : obj) (hookType : string) (hookEntry : obj) : outcome obj :=
  if JS.is_num (JS.prop (VObj config) "version") 3 then
    match JS.prop (VObj config) "workspace" with
    | VObj workspace =>
        match addToHooks (JS.prop (VObj workspace) "hooks") hookType hookEntry with
        | Ok hooks => Ok (<["workspace" := VObj (<["hooks" := hooks]> workspace)]> config)
        | Throw e => Throw e
        end
    | _ => Throw TypeError
    end
  else
    match addToHooks (JS.prop (VObj config) "hooks") hookType hookEntry with
    | Ok hooks => Ok (<["hooks" := hooks]> config)
    | Throw e => Throw e
    end.

End HookUtils.

(** ** The daily-journal command ([CreateDailyJournal.ts]) *)

Module CreateDailyJournalCommand.
Section WithCollaborators.
Context `{Collaborators}.

(** Lines 28-30 of [gatherInputs]: the journal config is resolved with
    [getConfig] and its [dailyDomain] read; reading a property of
    [undefined] or [null] throws.  The config after the call is returned
    with the outcome. *)
Definition dailyJournalDomain (config : obj) : obj * outcome value :=
  let '(config, journalConfig) := DConfig.getConfig config "workspace.journal" in
  if JS.nullish journalConfig then (config, Throw TypeError)
  else (config, Ok (JS.prop journalConfig "dailyDomain")).

End WithCollaborators.
End CreateDailyJournalCommand.

(** ** Concrete collaborators and inputs for the examples *)

Definition sample_collaborators : Collaborators :=
  {| genDefaultCommandConfig :=
       VObj (JS.literal [ ("lookup", VObj (JS.literal [ ("note", VObj ∅) ])) ]);
     genDefaultWorkspaceConfig :=
       VObj (JS.literal [ ("vaults", VArr []) ]);
     LegacyLookupSelectionType_selectionExtract := VStr "selectionExtract";
     LegacyNoteAddBehavior_childOfDomain := VStr "childOfDomain";
     LegacyNoteAddBehavior_asOwnDomain := VStr "asOwnDomain";
     DENDRON_CONFIG_FILE := "dendron.yml";
     path_join := λ dir name, dir ++ "/" ++ name |}.

Definition hook (id : string) : value :=
  VObj (JS.literal [ ("id", VStr id); ("type", VStr "js") ]).

(** A v1 config with the journal of the specification's example. *)
Definition v1_with_journal : obj :=
  JS.literal [ ("version", VNum 1);
               ("journal", VObj (JS.literal [ ("name", VStr "j1") ])) ].

(** A v3 config that switches the preview flag off. *)
Definition v3_preview_off : obj :=
  JS.literal [ ("version", VNum 3);
               ("dev", VObj (JS.literal [ ("enablePreviewV2", VBool false) ])) ].

(** A v1 config with two registered hooks. *)
Definition v1_two_hooks : obj :=
  JS.literal [ ("version", VNum 1);
               ("hooks", VObj (JS.literal [ ("onCreate", VArr [hook "a"; hook "b"]) ])) ].

(** A site config with a root directory and a URL but no hierarchy. *)
Definition site_without_hierarchies : obj :=
  JS.literal [ ("siteRootDir", VStr "docs");
               ("siteUrl", VStr "https://example.com");
               ("siteHierarchies", VArr []) ].

(** A site config that [cleanSiteConfig] accepts outside the dev stage. *)
Definition site_published : obj :=
  JS.literal [ ("siteRootDir", VStr "docs");
               ("siteUrl", VStr "https://example.com");
               ("siteHierarchies", VArr [VStr "root"]) ].

Definition empty_world : world :=
  {| files := ∅; today := "2024.01.02.0304056"; env_SITE_URL := None; stage := "prod" |}.

(** A v1 config in which hook ["a"] is registered twice. *)
Definition v1_three_hooks : obj :=
  JS.literal [ ("version", VNum 1);
               ("hooks", VObj (JS.literal
                  [ ("onCreate", VArr [hook "a"; hook "b"; hook "a"]) ])) ].

(** An on-disk config that overrides [site] with a partial object. *)
Definition partial_on_disk : obj :=
  JS.literal [ ("version", VNum 1);
               ("site", VObj (JS.literal [ ("siteUrl", VStr "https://example.com") ])) ].

(** A world whose workspace ["/ws"] holds that config file (for
    [sample_collaborators]). *)
Definition world_with_config : world :=
  {| files := {[ "/ws/dendron.yml" := partial_on_disk ]};
     today := "2024.01.02.0304056"; env_SITE_URL := None; stage := "prod" |}.

(** A hook entry as an object. *)
Definition hook_entry (id : string) : obj :=
  JS.literal [ ("id", VStr id); ("type", VStr "js") ].

(** A v2 config that still has its journal at top level. *)
Definition v2_with_journal : obj :=
  JS.literal [ ("version", VNum 2);
               ("journal", VObj (JS.literal [ ("name", VStr "j2");
                                              ("dailyDomain", VStr "log") ])) ].

(** A v3 config with a workspace and no hooks yet. *)
Definition v3_with_workspace : obj :=
  JS.literal [ ("version", VNum 3);
               ("workspace", VObj (JS.literal [ ("vaults", VArr []) ])) ].

(** A v1 config with hooks under two lifecycle keys. *)
Definition v1_two_hook_types : obj :=
  JS.literal [ ("version", VNum 1);
               ("hooks", VObj (JS.literal
                  [ ("onCreate", VArr [hook "x"]);
                    ("onDelete", VArr [hook "a"; hook "b"]) ])) ].

(** A config that switches pretty refs off at top level only. *)
Definition pretty_refs_off : obj :=
  JS.literal [ ("version", VNum 1);
               ("usePrettyRefs", VBool false);
               ("site", VObj (JS.literal [ ("usePrettyRefs", VBool true) ])) ].

(** A site config without a URL. *)
Definition site_without_url : obj :=
  JS.literal [ ("siteRootDir", VStr "docs");
               ("siteHierarchies", VArr [VStr "root"]) ].

Definition dev_world : world :=
  {| files := ∅; today := "2024.01.02.0304056"; env_SITE_URL := None; stage := "dev" |}.

(** * Properties *)

(** ** Values and lodash *)

Lemma isUndefined_true v : Lodash.isUndefined v = true ↔ v = VUndefined.
Proof. by destruct v. Qed.

Lemma stringToPath_nonempty s : Lodash.stringToPath s ≠ [].
Proof.
  destruct s as [|c rest]; simpl; [done|].
  destruct (Ascii.eqb c "."); [done|].
  by destruct (Lodash.stringToPath rest).
Qed.

Lemma castPath_nonempty path object : Lodash.castPath path object ≠ [].
Proof.
  unfold Lodash.castPath.
  destruct (negb (Lodash.has_dot path) || JS.has_prop object path); [done|].
  apply stringToPath_nonempty.
Qed.

(** What [_.defaults] leaves in the destination, key by key. *)
Lemma lookup_defaults (object source : obj) k :
  Lodash.defaults object source !! k =
    match object !! k with
    | Some VUndefined | None =>
        match source !! k with Some d => Some d | None => object !! k end
    | Some v => Some v
    end.
Proof.
  unfold Lodash.defaults. rewrite lookup_union_with.
  destruct (object !! k) as [[]|], (source !! k); reflexivity.
Qed.

(** What [{...a, ...b}] holds, key by key. *)
Lemma lookup_spread (a b : obj) k :
  JS.spread a b !! k = match b !! k with Some v => Some v | None => a !! k end.
Proof.
  unfold JS.spread. rewrite lookup_union.
  destruct (b !! k), (a !! k); reflexivity.
Qed.

(** Reading a property that was just assigned, or another one. *)
Lemma prop_insert_eq (m : obj) k v : JS.prop (VObj (<[k := v]> m)) k = v.
Proof. cbn [JS.prop]. by rewrite lookup_insert_eq. Qed.

Lemma prop_insert_ne (m : obj) k k' v :
  k ≠ k' → JS.prop (VObj (<[k := v]> m)) k' = JS.prop (VObj m) k'.
Proof. intros Hne. cbn [JS.prop]. by rewrite lookup_insert_ne. Qed.

(** ** The resolver *)

Section Resolver.
Context `{Collaborators}.

(** A truthy direct hit is returned as it is, whatever the version. *)
Lemma getConfig_truthy_hit (config : obj) path :
  JS.truthy (Lodash.get (VObj config) path) = true →
  DConfig.getConfig config path = (config, Lodash.get (VObj config) path).
Proof. intros Ht. unfold DConfig.getConfig. by rewrite Ht. Qed.

(** A hit that is defined but falsy reaches the bare [return;]. *)
Lemma getConfig_falsy_hit (config : obj) path :
  JS.truthy (Lodash.get (VObj config) path) = false →
  Lodash.get (VObj config) path ≠ VUndefined →
  DConfig.getConfig config path = (config, VUndefined).
Proof.
  intros Hf Hd. unfold DConfig.getConfig. rewrite Hf.
  destruct (Lodash.isUndefined _) eqn:Hu; [|done].
  by apply isUndefined_true in Hu.
Qed.

(** C1 (as the code behaves at a failing input): direct lookup of
    ["dev.enablePreviewV2"] on a v3 config that sets the flag to [false]
    finds the defined value [false], yet [getConfig] returns [undefined]:
    the fast path tests truthiness, not definedness. *)
Theorem getConfig_drops_false :
  Lodash.get (VObj v3_preview_off) "dev.enablePreviewV2" = VBool false
  ∧ DConfig.getConfig v3_preview_off "dev.enablePreviewV2"
    = (v3_preview_off, VUndefined).
Proof.
  assert (Hget : Lodash.get (VObj v3_preview_off) "dev.enablePreviewV2" = VBool false)
    by reflexivity.
  split; [exact Hget|].
  apply getConfig_falsy_hit; by rewrite Hget.
Qed.

End Resolver.

Section ResolverFallbacks.
Context `{Collaborators}.

(** A dotted path whose first segment is missing, and that is not itself
    the name of a property, is not found by [_.get]. *)
Lemma get_missing_head (config : obj) :
  config !! "workspace" = None →
  config !! "workspace.journal" = None →
  Lodash.get (VObj config) "workspace.journal" = VUndefined.
Proof.
  intros Hw Hlit.
  unfold Lodash.get, Lodash.get_default, Lodash.baseGet, Lodash.castPath.
  cbn [JS.nullish JS.has_prop]. rewrite Hlit.
  rewrite bool_decide_eq_false_2 by (intros [? ?]; done).
  change (Lodash.has_dot "workspace.journal") with true.
  change (Lodash.stringToPath "workspace.journal") with ["workspace"; "journal"].
  cbn [negb orb Lodash.walk JS.nullish JS.prop]. rewrite Hw. reflexivity.
Qed.

(** C4: on a config whose version is neither 3 nor 2 (so 1, unset, or
    anything else), a path that direct lookup does not find resolves to
    [getProp(config, legacyKey)], [legacyKey] being the image of the path
    in the Legacy Path Registry; in particular a v1 config with a
    top-level [journal] and no [workspace] yields that journal for
    ["workspace.journal"]. *)
Theorem getConfig_legacy_fallback :
  (∀ (config : obj) path,
      Lodash.get (VObj config) path = VUndefined →
      JS.is_num (JS.prop (VObj config) "version") 3 = false →
      JS.is_num (JS.prop (VObj config) "version") 2 = false →
      DConfig.getConfig config path
      = DConfig.getProp config (JS.toKey (map_get requiredPathsMap path)))
  ∧ (∀ (config : obj) journal,
      config !! "version" = Some (VNum 1) →
      config !! "journal" = Some journal →
      journal ≠ VUndefined →
      config !! "workspace" = None →
      config !! "workspace.journal" = None →
      (DConfig.getConfig config "workspace.journal").2 = journal).
Proof.
  assert (Hgen : ∀ (config : obj) path,
      Lodash.get (VObj config) path = VUndefined →
      JS.is_num (JS.prop (VObj config) "version") 3 = false →
      JS.is_num (JS.prop (VObj config) "version") 2 = false →
      DConfig.getConfig config path
      = DConfig.getProp config (JS.toKey (map_get requiredPathsMap path))).
  { intros config path Hget H3 H2.
    unfold DConfig.getConfig, DConfig.isCurrentConfig, CURRENT_CONFIG_VERSION.
    rewrite Hget, H3, H2. reflexivity. }
  split; [exact Hgen|].
  intros config journal Hv Hj Hdef Hw Hlit.
  rewrite Hgen.
  - change (JS.toKey (map_get requiredPathsMap "workspace.journal")) with "journal".
    unfold DConfig.getProp. cbn [snd JS.prop].
    rewrite lookup_defaults, Hj. by destruct journal.
  - by apply get_missing_head.
  - cbn [JS.prop]. by rewrite Hv.
  - cbn [JS.prop]. by rewrite Hv.
Qed.

(** C5: on a version-3 config, a path that direct lookup does not find
    resolves to its value in a fresh [genDefaultConfig(3)] when the path
    is in the Legacy Path Registry, and to [undefined] otherwise; the
    config is left as it was.  ["dev.someUnknownFlag"] is not in the
    registry and resolves to [undefined]. *)
Theorem getConfig_current_version :
  (∀ (config : obj) path,
      JS.is_num (JS.prop (VObj config) "version") 3 = true →
      Lodash.get (VObj config) path = VUndefined →
      DConfig.getConfig config path
      = (config,
         if DConfig.isRequired path
         then Lodash.get (VObj (DConfig.genDefaultConfig (Some 3%Z))) path
         else VUndefined))
  ∧ (∀ (config : obj),
      JS.is_num (JS.prop (VObj config) "version") 3 = true →
      Lodash.get (VObj config) "dev.someUnknownFlag" = VUndefined →
      DConfig.getConfig config "dev.someUnknownFlag" = (config, VUndefined)).
Proof.
  assert (Hgen : ∀ (config : obj) path,
      JS.is_num (JS.prop (VObj config) "version") 3 = true →
      Lodash.get (VObj config) path = VUndefined →
      DConfig.getConfig config path
      = (config,
         if DConfig.isRequired path
         then Lodash.get (VObj (DConfig.genDefaultConfig (Some 3%Z))) path
         else VUndefined)).
  { intros config path H3 Hget.
    unfold DConfig.getConfig, DConfig.isCurrentConfig, CURRENT_CONFIG_VERSION.
    rewrite Hget, H3. cbn [JS.truthy Lodash.isUndefined negb andb].
    by destruct (DConfig.isRequired path). }
  split; [exact Hgen|].
  intros config H3 Hget. by rewrite Hgen.
Qed.

(** C10: [getProp] writes into the config it is given: after the call,
    every top-level field of [genDefaultConfig()] that the config lacked
    (or held as [undefined]) carries its v1 default, the fields the config
    defined are unchanged, and the returned value is read from the config
    so filled; hence there is a v1 config that a [getConfig] call
    changes. *)
Theorem getProp_mutates_config :
  (∀ (config : obj) key,
      let config' := (DConfig.getProp config key).1 in
      (∀ k d, DConfig.genDefaultConfig None !! k = Some d →
              config !! k = None ∨ config !! k = Some VUndefined →
              config' !! k = Some d)
      ∧ (∀ k v, config !! k = Some v → v ≠ VUndefined → config' !! k = Some v)
      ∧ (DConfig.getProp config key).2 = JS.prop (VObj config') key)
  ∧ (∃ (config : obj) path,
        JS.prop (VObj config) "version" = VNum 1
        ∧ (DConfig.getConfig config path).1 ≠ config).
Proof.
  split.
  - intros config key config'. subst config'. unfold DConfig.getProp. cbn [fst snd].
    repeat split.
    + intros k d Hd [Hk|Hk]; rewrite lookup_defaults, Hk, Hd; reflexivity.
    + intros k v Hk Hv. rewrite lookup_defaults, Hk. by destruct v.
  - exists v1_with_journal, "workspace.vaults".
    split; [reflexivity|].
    intros Heq. apply (f_equal (λ m : obj, m !! "vaults")) in Heq.
    vm_compute in Heq. discriminate Heq.
Qed.

End ResolverFallbacks.

(** ** The store *)

Lemma append_assoc (a b c : string) : (a ++ b) ++ c = a ++ (b ++ c).
Proof.
  induction a as [|x a IH]; [reflexivity|].
  change (String x ((a ++ b) ++ c) = String x (a ++ (b ++ c))).
  by rewrite IH.
Qed.

Section Store.
Context `{Collaborators}.

(** C6: with a config file at the root, [getOrCreate] returns, key by
    key, the on-disk value when the key is on disk (whatever its nested
    content), else the [genDefaultConfig()] value when the default config
    has the key, else the value of [defaults]; the files are not touched.
    With no file, the provisional config ([defaults] overridden by
    [genDefaultConfig()]) is written at the config path and returned. *)
Theorem getOrCreate_shallow_merge (w : world) root (defaults : option obj) :
  let provisional := JS.spread (default ∅ defaults) (DConfig.genDefaultConfig None) in
  (∀ onDisk : obj,
      files w !! DConfig.configPath root = Some onDisk →
      ∃ config : obj,
        DConfig.getOrCreate w root defaults = (w, config)
        ∧ ∀ k, config !! k =
                match onDisk !! k with
                | Some v => Some v
                | None =>
                    match DConfig.genDefaultConfig None !! k with
                    | Some d => Some d
                    | None => default ∅ defaults !! k
                    end
                end)
  ∧ (files w !! DConfig.configPath root = None →
      ∃ w',
        DConfig.getOrCreate w root defaults = (w', provisional)
        ∧ files w' !! DConfig.configPath root = Some provisional
        ∧ ∀ p, p ≠ DConfig.configPath root → files w' !! p = files w !! p).
Proof.
  intros provisional. split.
  - intros onDisk Hfile. eexists. split.
    + unfold DConfig.getOrCreate. rewrite Hfile. reflexivity.
    + intros k. by rewrite !lookup_spread.
  - intros Hfile. eexists. split; [|split].
    + unfold DConfig.getOrCreate. rewrite Hfile. reflexivity.
    + simpl. by rewrite lookup_insert_eq.
    + intros p Hp. simpl. by rewrite lookup_insert_ne.
Qed.

(** C7: for each version 1, 2, 3 the default config carries that version
    and every field the strict type of the version requires, none of them
    [undefined]; with the version omitted the v1 config is produced. *)
Theorem genDefaultConfig_complete :
  (∀ v : Z, v = 1%Z ∨ v = 2%Z ∨ v = 3%Z →
            Schema.complete v (DConfig.genDefaultConfig (Some v)) = true)
  ∧ DConfig.genDefaultConfig None = DConfig.genDefaultConfig (Some 1%Z).
Proof.
  split; [|reflexivity].
  intros v [-> | [-> | ->]]; vm_compute; reflexivity.
Qed.

(** C9: when the config file exists, [createBackup] copies it to
    [dendron.<timestamp>.<infix>.yml] beside it, or to
    [dendron.<timestamp>.yml] when the infix is empty, leaves every other
    file as it was and returns the path of the copy; when the config file
    does not exist it raises the file-system error and changes nothing. *)
Theorem createBackup_naming (w : world) (wsRoot infix : string) :
  let name :=
    if String.eqb infix "" then "dendron." ++ today w ++ ".yml"
    else "dendron." ++ today w ++ "." ++ infix ++ ".yml" in
  let backupPath := path_join wsRoot name in
  (∀ content : obj,
      files w !! DConfig.configPath wsRoot = Some content →
      DConfig.createBackup w wsRoot infix
      = (with_files w (<[backupPath := content]> (files w)), Ok backupPath))
  ∧ (files w !! DConfig.configPath wsRoot = None →
      DConfig.createBackup w wsRoot infix
      = (w, Throw (ENOENT (DConfig.configPath wsRoot)))).
Proof.
  intros name backupPath. split.
  - intros content Hfile. unfold DConfig.createBackup. rewrite Hfile.
    assert (Hname : DConfig.backupName (today w) infix = name).
    { unfold DConfig.backupName, name. cbn [JS.truthy].
      destruct (String.eqb infix ""); cbn [negb].
      - by rewrite !append_assoc.
      - by rewrite !append_assoc. }
    rewrite Hname. reflexivity.
  - intros Hfile. unfold DConfig.createBackup. by rewrite Hfile.
Qed.

End Store.

(** ** The site-config normalizer *)

Section Normalizer.
Implicit Types (w : world) (config : obj).

(** The defaults of [cleanSiteConfig] do not touch the three validated
    fields. *)
Lemma siteDefaults_frame config k :
  DConfig.siteDefaults !! k = None →
  JS.prop (VObj (Lodash.defaults config DConfig.siteDefaults)) k
  = JS.prop (VObj config) k.
Proof.
  intros Hk. cbn [JS.prop]. rewrite lookup_defaults, Hk.
  by destruct (config !! k) as [[]|].
Qed.

(** The URL that survives lines 210-219: the environment override, the
    dev placeholder, or the configured value.  It is falsy exactly when
    nothing supplies it. *)
Lemma resolved_siteUrl_falsy (SITE_URL siteUrl : value) (stage : string) :
  JS.truthy
    (if negb (JS.truthy (if JS.truthy SITE_URL then SITE_URL else siteUrl))
        && String.eqb stage "dev"
     then VStr "https://foo"
     else if JS.truthy SITE_URL then SITE_URL else siteUrl) = false
  ↔ JS.truthy siteUrl = false ∧ JS.truthy SITE_URL = false ∧ stage ≠ "dev".
Proof.
  destruct (String.eqb_spec stage "dev") as [Hdev|Hdev];
    destruct (JS.truthy SITE_URL) eqn:He; rewrite ?He;
    destruct (JS.truthy siteUrl) eqn:Hu; rewrite ?Hu;
    cbn [negb andb]; rewrite ?He, ?Hu; cbn [JS.truthy String.eqb negb];
    split; try tauto; try congruence; intros (? & ? & ?); congruence.
Qed.

(** C8 (as the code behaves): a config that has a root directory and a
    site URL but an empty hierarchy list is rejected with [INVALID_CONFIG],
    although its [siteUrl] is there. *)
Lemma cleanSiteConfig_invalid_config_despite_siteUrl :
  JS.truthy (JS.prop (VObj site_without_hierarchies) "siteRootDir") = true
  ∧ site_without_hierarchies !! "siteUrl" = Some (VStr "https://example.com")
  ∧ (DConfig.cleanSiteConfig empty_world site_without_hierarchies).2
    = Throw (DendronError INVALID_CONFIG
               "siteHiearchies must have at least one hiearchy")
  ∧ ¬ (JS.truthy (JS.prop (VObj site_without_hierarchies) "siteUrl") = false
       ∧ env_SITE_URL empty_world = None
       ∧ stage empty_world ≠ "dev").
Proof.
  repeat split; try reflexivity.
  intros (Hurl & _ & _). vm_compute in Hurl. discriminate Hurl.
Qed.

(** C8 (amended): [cleanSiteConfig] throws for every input without a site
    hierarchy; and for every input whose [siteRootDir] is present it
    throws an [INVALID_CONFIG] error exactly when there is no site
    hierarchy, or [siteUrl] is absent or empty in the config while
    [SITE_URL] is unset or empty and the stage is not ["dev"]. *)
Theorem cleanSiteConfig_rejects w config :
  let siteRootDir := JS.prop (VObj config) "siteRootDir" in
  let siteHierarchies := JS.prop (VObj config) "siteHierarchies" in
  let siteUrl := JS.prop (VObj config) "siteUrl" in
  let SITE_URL := DConfig.env_value (env_SITE_URL w) in
  (Lodash.size siteHierarchies = 0%nat →
     ∃ e, (DConfig.cleanSiteConfig w config).2 = Throw e)
  ∧ (JS.truthy siteRootDir = true →
       (∃ message, (DConfig.cleanSiteConfig w config).2
                   = Throw (DendronError INVALID_CONFIG message))
       ↔ (Lodash.size siteHierarchies = 0%nat
          ∨ (JS.truthy siteUrl = false
             ∧ JS.truthy SITE_URL = false
             ∧ stage w ≠ "dev"))).
Proof.
  intros siteRootDir siteHierarchies siteUrl SITE_URL.
  unfold DConfig.cleanSiteConfig. cbn zeta.
  rewrite !siteDefaults_frame by reflexivity.
  fold siteRootDir siteHierarchies siteUrl SITE_URL.
  pose proof (resolved_siteUrl_falsy SITE_URL siteUrl (stage w)) as Hurl.
  destruct (JS.truthy (if _ && _ then _ else _)) eqn:Hresolved in Hurl |- *.
  - (* the URL resolves *)
    split.
    + intros Hsize. rewrite Hsize.
      destruct (JS.truthy siteRootDir); cbn; eauto.
    + intros Hroot. rewrite Hroot. cbn [negb].
      destruct (Nat.ltb_spec (Lodash.size siteHierarchies) 1) as [Hlt|Hge]; cbn [snd].
      * split; [intros _; left; lia | eauto].
      * split; [intros [? [=]] | intros [Hz|Hno]; [lia|]].
        apply Hurl in Hno. discriminate Hno.
  - (* nothing supplies the URL *)
    split.
    + intros _. destruct (JS.truthy siteRootDir); cbn; eauto.
    + intros Hroot. rewrite Hroot. cbn [negb snd].
      split; [intros _; right; by apply Hurl | eauto].
Qed.

End Normalizer.

(** ** The hook-list editor *)

Section HookList.
Implicit Types (config : obj) (hooks : value) (l : list value).

(** [_.remove] returns matching entries only, so [findIndex] finds its
    first element (or nothing) and [splice] drops it. *)
Lemma splice_findIndex_tail hookId l :
  Forall (λ e, Lodash.matches_id hookId e = true) l →
  splice1 l (Lodash.findIndex l hookId) = tail l.
Proof.
  intros Hall. destruct Hall as [|e r He _]; [reflexivity|].
  unfold splice1. cbn [Lodash.findIndex]. rewrite He.
  cbn [Z.ltb Z.compare].
  replace (Z.to_nat (Z.min 0 (Z.of_nat (List.length (e :: r))))) with 0%nat by lia.
  reflexivity.
Qed.

Lemma with_id_all hookId l :
  Forall (λ e, Lodash.matches_id hookId e = true) (HookUtils.with_id hookId l).
Proof.
  unfold HookUtils.with_id. apply Forall_forall.
  intros e He. by apply list_elem_of_filter in He as [? _].
Qed.

Lemma Forall_tail {A} (P : A → Prop) (l : list A) : Forall P l → Forall P (tail l).
Proof. intros [|? ? _ ?]; [constructor | assumption]. Qed.

(** The list that [removeFromHooks] stores back. *)
Lemma removeFromHooks_stored hooks hookType hookId :
  (HookUtils.removeFromHooks hooks hookType hookId).2
  = tail (HookUtils.with_id hookId
            (match Lodash.get_default hooks hookType (VArr []) with
             | VArr l => l
             | _ => []
             end)).
Proof.
  unfold HookUtils.removeFromHooks.
  destruct (Lodash.get_default hooks hookType (VArr [])) as [| | | | |l|];
    cbn [Lodash.remove snd]; try reflexivity.
  apply splice_findIndex_tail, with_id_all.
Qed.

Lemma put_object (m : obj) k rest new :
  ∃ m' : obj, HookUtils.put (VObj m) (k :: rest) new = VObj m'.
Proof. cbn [HookUtils.put]. destruct (m !! k); eauto. Qed.

(** A container that is an object, or absent, stays (or becomes) an
    object. *)
Lemma removeFromHooks_container hooks hookType hookId :
  (match hooks with VObj _ => true | _ => negb (JS.truthy hooks) end) = true →
  ∃ h : obj, (HookUtils.removeFromHooks hooks hookType hookId).1 = VObj h.
Proof.
  intros Hok. unfold HookUtils.removeFromHooks.
  destruct (Lodash.remove _ hookId) as [mutated removed]. cbn [fst].
  destruct (JS.truthy hooks) eqn:Ht.
  - destruct hooks as [| | | | | |m]; try discriminate Hok.
    cbn [andb]. destruct (negb (Lodash.isUndefined _)); [|eauto].
    destruct (Lodash.castPath hookType (VObj m)) as [|k rest] eqn:Hp.
    + by apply castPath_nonempty in Hp.
    + apply put_object.
  - cbn [andb]. eauto.
Qed.

Lemma put_not_object hooks k rest new :
  (∀ m : obj, hooks ≠ VObj m) →
  ∀ onCreate,
    HookUtils.assign_onCreate (HookUtils.put hooks (k :: rest) new) onCreate
    = Throw TypeError.
Proof.
  intros Hno onCreate. cbn [HookUtils.put].
  destruct hooks as [| | | | |l|m]; try reflexivity.
  - destruct (JS.array_index k) as [i|]; [|reflexivity].
    by destruct (l !! i).
  - by destruct (Hno m).
Qed.

(** Without a container that can take the assignment the call throws. *)
Lemma removeFromConfig_throws config hookType hookId :
  HookUtils.container_ok config = false →
  HookUtils.removeFromConfig config hookType hookId = Throw TypeError.
Proof.
  unfold HookUtils.container_ok, HookUtils.removeFromConfig.
  assert (Hbad : ∀ hooks,
    (match hooks with VObj _ => true | _ => negb (JS.truthy hooks) end) = false →
    ∀ onCreate, HookUtils.assign_onCreate
      (HookUtils.removeFromHooks hooks hookType hookId).1 onCreate = Throw TypeError).
  { intros hooks Hh onCreate. unfold HookUtils.removeFromHooks.
    destruct (Lodash.remove _ hookId) as [mutated removed]. cbn [fst].
    assert (Hno : ∀ m : obj, hooks ≠ VObj m) by (intros m ->; discriminate Hh).
    assert (Ht : JS.truthy hooks = true).
    { destruct hooks; try discriminate Hh; try done; by apply negb_false_iff in Hh. }
    rewrite Ht. cbn [andb]. destruct (negb (Lodash.isUndefined _)).
    - destruct (Lodash.castPath hookType hooks) as [|k rest] eqn:Hp.
      + by apply castPath_nonempty in Hp.
      + by apply put_not_object.
    - destruct hooks; try reflexivity. by destruct (Hno m). }
  destruct (JS.is_num _ 3).
  - destruct (JS.prop (VObj config) "workspace") as [| | | | | |ws]; try done.
    intros Hh. specialize (Hbad _ Hh).
    destruct (HookUtils.removeFromHooks _ hookType hookId) as [container onCreate].
    cbn [fst] in Hbad. by rewrite Hbad.
  - intros Hh. specialize (Hbad _ Hh).
    destruct (HookUtils.removeFromHooks _ hookType hookId) as [container onCreate].
    cbn [fst] in Hbad. by rewrite Hbad.
Qed.

(** C2 (as the code behaves at a failing input): removing hook ["a"] from
    the list [[a; b]] should leave [[b]]; the call stores the empty list,
    and hook ["b"] is lost. *)
Theorem removeFromConfig_loses_other_hooks :
  HookUtils.hookList v1_two_hooks "onCreate" = [hook "a"; hook "b"]
  ∧ HookUtils.without_id "a" (HookUtils.hookList v1_two_hooks "onCreate") = [hook "b"]
  ∧ ∃ config',
      HookUtils.removeFromConfig v1_two_hooks "onCreate" "a" = Ok config'
      ∧ HookUtils.storedOnCreate config' = VArr [].
Proof.
  split; [reflexivity|]. split; [reflexivity|].
  eexists. split; reflexivity.
Qed.

(** C3: whenever the hook container can take the assignment,
    [removeFromConfig] returns, and the [onCreate] list it stores is the
    list of the entries whose id is [hookId] without its first element;
    every stored entry has id [hookId], and when no entry matches the
    stored list is empty, whatever the list held. *)
Theorem removeFromConfig_stores_matching_tail config hookType hookId :
  HookUtils.container_ok config = true →
  let matching := HookUtils.with_id hookId (HookUtils.hookList config hookType) in
  ∃ config',
    HookUtils.removeFromConfig config hookType hookId = Ok config'
    ∧ HookUtils.storedOnCreate config' = VArr (tail matching)
    ∧ Forall (λ e, Lodash.matches_id hookId e = true) (tail matching)
    ∧ (matching = [] → HookUtils.storedOnCreate config' = VArr []).
Proof.
  intros Hok matching.
  assert (Hmain : ∃ config',
    HookUtils.removeFromConfig config hookType hookId = Ok config'
    ∧ HookUtils.storedOnCreate config' = VArr (tail matching)).
  { subst matching. revert Hok.
    unfold HookUtils.container_ok, HookUtils.removeFromConfig,
      HookUtils.hookList, HookUtils.storedOnCreate.
    destruct (JS.is_num (JS.prop (VObj config) "version") 3) eqn:Hv.
    - destruct (JS.prop (VObj config) "workspace") as [| | | | | |ws] eqn:Hws;
        try discriminate.
      intros Hok.
      pose proof (removeFromHooks_stored (JS.prop (VObj ws) "hooks") hookType hookId) as Hst.
      destruct (removeFromHooks_container _ hookType hookId Hok) as [h Hh].
      destruct (HookUtils.removeFromHooks _ hookType hookId) as [container onCreate].
      cbn [fst snd] in Hst, Hh. subst container onCreate.
      cbn [HookUtils.assign_onCreate]. eexists. split; [reflexivity|].
      rewrite prop_insert_ne by done. rewrite Hv.
      by rewrite !prop_insert_eq.
    - intros Hok.
      pose proof (removeFromHooks_stored (JS.prop (VObj config) "hooks") hookType hookId) as Hst.
      destruct (removeFromHooks_container _ hookType hookId Hok) as [h Hh].
      destruct (HookUtils.removeFromHooks _ hookType hookId) as [container onCreate].
      cbn [fst snd] in Hst, Hh. subst container onCreate.
      cbn [HookUtils.assign_onCreate]. eexists. split; [reflexivity|].
      rewrite prop_insert_ne by done. rewrite Hv.
      by rewrite !prop_insert_eq. }
  destruct Hmain as (config' & Hret & Hst).
  exists config'. split; [exact Hret|]. split; [exact Hst|]. split.
  - apply Forall_tail, with_id_all.
  - intros Hnone. by rewrite Hst, Hnone.
Qed.

End HookList.

(** ** The properties at concrete inputs *)

Lemma getConfig_legacy_fallback_witness :
  DConfig.getConfig (H := sample_collaborators) v1_with_journal "workspace.journal"
  = DConfig.getProp (H := sample_collaborators) v1_with_journal "journal"
  ∧ (DConfig.getConfig (H := sample_collaborators) v1_with_journal "workspace.journal").2
    = VObj (JS.literal [ ("name", VStr "j1") ]).
Proof.
  split.
  - apply (proj1 (@getConfig_legacy_fallback sample_collaborators)
             v1_with_journal "workspace.journal"); reflexivity.
  - apply (proj2 (@getConfig_legacy_fallback sample_collaborators)
             v1_with_journal (VObj (JS.literal [ ("name", VStr "j1") ])));
      [reflexivity | reflexivity | discriminate | reflexivity | reflexivity].
Defined.

Lemma getConfig_current_version_witness :
  DConfig.getConfig (H := sample_collaborators) v3_preview_off "workspace.vaults"
  = (v3_preview_off, VArr [])
  ∧ DConfig.getConfig (H := sample_collaborators) v3_preview_off "dev.someUnknownFlag"
    = (v3_preview_off, VUndefined).
Proof.
  split.
  - apply (proj1 (@getConfig_current_version sample_collaborators)
             v3_preview_off "workspace.vaults"); reflexivity.
  - apply (proj2 (@getConfig_current_version sample_collaborators)
             v3_preview_off); reflexivity.
Defined.

Lemma getProp_mutates_config_witness :
  v1_with_journal !! "vaults" = None
  ∧ (DConfig.getProp (H := sample_collaborators) v1_with_journal "journal").1 !! "vaults"
    = Some (VArr []).
Proof.
  split; [reflexivity|].
  apply (proj1 (proj1 (@getProp_mutates_config sample_collaborators)
                  v1_with_journal "journal") "vaults" (VArr []));
    [reflexivity | left; reflexivity].
Defined.

Lemma getOrCreate_shallow_merge_witness :
  (∃ config : obj,
      DConfig.getOrCreate (H := sample_collaborators) world_with_config "/ws" None
      = (world_with_config, config)
      ∧ config !! "site"
        = Some (VObj (JS.literal [ ("siteUrl", VStr "https://example.com") ])))
  ∧ (∃ w',
      DConfig.getOrCreate (H := sample_collaborators) empty_world "/ws" None
      = (w', DConfig.genDefaultConfig (H := sample_collaborators) None)
      ∧ files w' !! "/ws/dendron.yml"
        = Some (DConfig.genDefaultConfig (H := sample_collaborators) None)).
Proof.
  split.
  - destruct (proj1 (@getOrCreate_shallow_merge sample_collaborators
                       world_with_config "/ws" None) partial_on_disk eq_refl)
      as (config & Hret & Hkeys).
    exists config. split; [exact Hret|]. exact (Hkeys "site").
  - destruct (proj2 (@getOrCreate_shallow_merge sample_collaborators
                       empty_world "/ws" None) eq_refl)
      as (w' & Hret & Hfile & _).
    exists w'. split; [exact Hret | exact Hfile].
Defined.

Lemma genDefaultConfig_complete_witness :
  Schema.complete 2 (DConfig.genDefaultConfig (H := sample_collaborators) (Some 2%Z)) = true.
Proof.
  apply (proj1 (@genDefaultConfig_complete sample_collaborators) 2%Z).
  right; left; reflexivity.
Defined.

Lemma createBackup_naming_witness :
  DConfig.createBackup (H := sample_collaborators) world_with_config "/ws" "foo"
  = (with_files world_with_config
       (<["/ws/dendron.2024.01.02.0304056.foo.yml" := partial_on_disk]>
          (files world_with_config)),
     Ok "/ws/dendron.2024.01.02.0304056.foo.yml")
  ∧ DConfig.createBackup (H := sample_collaborators) empty_world "/ws" "foo"
    = (empty_world, Throw (ENOENT "/ws/dendron.yml")).
Proof.
  split.
  - apply (proj1 (@createBackup_naming sample_collaborators world_with_config "/ws" "foo")
             partial_on_disk); reflexivity.
  - apply (proj2 (@createBackup_naming sample_collaborators empty_world "/ws" "foo"));
      reflexivity.
Defined.

Lemma cleanSiteConfig_rejects_witness :
  (∃ e, (DConfig.cleanSiteConfig empty_world site_without_hierarchies).2 = Throw e)
  ∧ ((∃ message, (DConfig.cleanSiteConfig empty_world site_published).2
                 = Throw (DendronError INVALID_CONFIG message))
     ↔ (Lodash.size (JS.prop (VObj site_published) "siteHierarchies") = 0%nat
        ∨ (JS.truthy (JS.prop (VObj site_published) "siteUrl") = false
           ∧ JS.truthy (DConfig.env_value (env_SITE_URL empty_world)) = false
           ∧ stage empty_world ≠ "dev"))).
Proof.
  split.
  - apply (proj1 (cleanSiteConfig_rejects empty_world site_without_hierarchies)).
    reflexivity.
  - apply (proj2 (cleanSiteConfig_rejects empty_world site_published)).
    reflexivity.
Defined.

Lemma removeFromConfig_stores_matching_tail_witness :
  HookUtils.container_ok v1_three_hooks = true
  ∧ ∃ config',
      HookUtils.removeFromConfig v1_three_hooks "onCreate" "a" = Ok config'
      ∧ HookUtils.storedOnCreate config' = VArr [hook "a"].
Proof.
  split; [reflexivity|].
  destruct (removeFromConfig_stores_matching_tail v1_three_hooks "onCreate" "a" eq_refl)
    as (config' & Hret & Hstored & _).
  exists config'. split; [exact Hret | exact Hstored].
Defined.

(** * Further properties of the code *)

(** ** The resolver on older configs *)

Lemma is_num_exclusive v (n m : Z) : n ≠ m → JS.is_num v n = true → JS.is_num v m = false.
Proof.
  destruct v; try discriminate. cbn [JS.is_num]. intros Hne Hn.
  apply Z.eqb_eq in Hn. apply Z.eqb_neq. congruence.
Qed.

Lemma map_get_In m k v : map_get m k = Some v → In (k, v) m.
Proof.
  induction m as [|[k' v'] m IH]; cbn [map_get]; [discriminate|].
  destruct (String.eqb_spec k' k) as [-> | _].
  - intros [= ->]. by left.
  - intros Hm. right. by apply IH.
Qed.

Lemma defaults_idempotent (object source : obj) :
  Lodash.defaults (Lodash.defaults object source) source = Lodash.defaults object source.
Proof.
  apply map_eq. intros k. rewrite !lookup_defaults.
  destruct (object !! k) as [[]|] eqn:Ho, (source !! k) as [[]|] eqn:Hs;
    rewrite ?Ho, ?Hs; reflexivity.
Qed.

Section ResolverOnOlderConfigs.
Context `{Collaborators}.

(** Every top-level default of [genDefaultConfig()] is a defined value. *)
Lemma genDefaultConfig_v1_defined k d :
  DConfig.genDefaultConfig None !! k = Some d → d ≠ VUndefined.
Proof.
  intros Hk.
  assert (Hall : map_Forall (λ _ d, Lodash.isUndefined d = false)
                   (DConfig.genDefaultConfig None)).
  { apply map_Forall_to_list.
    vm_compute (map_to_list _). repeat constructor. }
  specialize (Hall _ _ Hk). intros ->. discriminate Hall.
Qed.

(** The legacy branch of [getConfig]. *)
Lemma getConfig_legacy_branch (config : obj) path :
  Lodash.get (VObj config) path = VUndefined →
  JS.is_num (JS.prop (VObj config) "version") 3 = false →
  JS.is_num (JS.prop (VObj config) "version") 2 = false →
  DConfig.getConfig config path
  = DConfig.getProp config (JS.toKey (map_get requiredPathsMap path)).
Proof.
  intros Hget H3 H2.
  unfold DConfig.getConfig, DConfig.isCurrentConfig, CURRENT_CONFIG_VERSION.
  by rewrite Hget, H3, H2.
Qed.

(** X1: on a version-2 config a path that direct lookup does not find is
    looked up in [genDefaultConfig(2)] when it is in the registry and is
    [undefined] otherwise, and the config is not written to.  The v2
    default has no [workspace], so ["workspace.journal"] and
    ["workspace.vaults"] resolve to [undefined] there, whatever the config
    holds at top level. *)
Theorem getConfig_v2_fallback (config : obj) path :
  JS.is_num (JS.prop (VObj config) "version") 2 = true →
  Lodash.get (VObj config) path = VUndefined →
  DConfig.getConfig config path
  = (config,
     if DConfig.isRequired path
     then Lodash.get (VObj (DConfig.genDefaultConfig (Some 2%Z))) path
     else VUndefined)
  ∧ (path = "workspace.journal" ∨ path = "workspace.vaults" →
     DConfig.getConfig config path = (config, VUndefined)).
Proof.
  intros H2 Hget.
  assert (H3 : JS.is_num (JS.prop (VObj config) "version") 3 = false)
    by (by apply (is_num_exclusive _ 2 3)).
  assert (Hgen : DConfig.getConfig config path
    = (config,
       if DConfig.isRequired path
       then Lodash.get (VObj (DConfig.genDefaultConfig (Some 2%Z))) path
       else VUndefined)).
  { unfold DConfig.getConfig, DConfig.isCurrentConfig, CURRENT_CONFIG_VERSION.
    rewrite Hget, H3, H2. cbn [JS.truthy Lodash.isUndefined negb andb].
    by destruct (DConfig.isRequired path). }
  split; [exact Hgen|].
  intros [-> | ->]; rewrite Hgen; reflexivity.
Qed.

(** X2: [getConfig] never removes or changes a field the config defines;
    on a version-2 or version-3 config, and on any direct hit with a truthy
    value, it leaves the config exactly as it was. *)
Theorem getConfig_frame (config : obj) path :
  (∀ k v, config !! k = Some v → v ≠ VUndefined →
          (DConfig.getConfig config path).1 !! k = Some v)
  ∧ (JS.is_num (JS.prop (VObj config) "version") 2 = true
     ∨ JS.is_num (JS.prop (VObj config) "version") 3 = true
     ∨ JS.truthy (Lodash.get (VObj config) path) = true →
     (DConfig.getConfig config path).1 = config).
Proof.
  assert (Hcases : (DConfig.getConfig config path).1 = config
                   ∨ (JS.truthy (Lodash.get (VObj config) path) = false
                      ∧ JS.is_num (JS.prop (VObj config) "version") 3 = false
                      ∧ JS.is_num (JS.prop (VObj config) "version") 2 = false
                      ∧ (DConfig.getConfig config path).1
                        = Lodash.defaults config (DConfig.genDefaultConfig None))).
  { unfold DConfig.getConfig, DConfig.isCurrentConfig, CURRENT_CONFIG_VERSION,
      DConfig.getLegacyConfig, DConfig.getProp.
    destruct (JS.truthy _); [by left|].
    destruct (Lodash.isUndefined _); cbn [andb].
    - destruct (JS.is_num _ 3); cbn [negb].
      + destruct (DConfig.isRequired path); by left.
      + destruct (JS.is_num _ 2).
        * destruct (DConfig.isRequired path); by left.
        * right. done.
    - by left. }
  split.
  - intros k v Hk Hv. destruct Hcases as [-> | (_ & _ & _ & ->)]; [done|].
    rewrite lookup_defaults, Hk. by destruct v.
  - intros Hor. destruct Hcases as [Heq | (Ht & H3 & H2 & _)]; [done|].
    destruct Hor as [Hor | [Hor | Hor]]; congruence.
Qed.

(** X3: on a config that is neither version 2 nor version 3, a registry
    path that direct lookup does not find resolves to the legacy top-level
    field when the config defines it; for ["workspace.journal"],
    ["workspace.vaults"] and ["commands.lookup"] it otherwise resolves to the
    v1 default of the legacy field, which is never [undefined]. *)
Theorem getConfig_v1_resolves (config : obj) path key :
  map_get requiredPathsMap path = Some key →
  JS.is_num (JS.prop (VObj config) "version") 3 = false →
  JS.is_num (JS.prop (VObj config) "version") 2 = false →
  Lodash.get (VObj config) path = VUndefined →
  (∀ v, config !! key = Some v → v ≠ VUndefined →
        (DConfig.getConfig config path).2 = v)
  ∧ (config !! key = None ∨ config !! key = Some VUndefined →
     path = "workspace.journal" ∨ path = "workspace.vaults" ∨ path = "commands.lookup" →
     (DConfig.getConfig config path).2 = JS.prop (VObj (DConfig.genDefaultConfig None)) key
     ∧ (DConfig.getConfig config path).2 ≠ VUndefined).
Proof.
  intros Hkey H3 H2 Hget.
  rewrite (getConfig_legacy_branch config path Hget H3 H2), Hkey.
  change (JS.toKey (Some key)) with key. unfold DConfig.getProp. cbn [snd JS.prop].
  rewrite lookup_defaults. split.
  - intros v Hv Hdef. rewrite Hv. by destruct v.
  - intros Hmiss Hpath.
    assert (Hd : ∃ d, DConfig.genDefaultConfig None !! key = Some d).
    { destruct Hpath as [-> | [-> | ->]]; injection Hkey as <-; eexists; reflexivity. }
    destruct Hd as [d Hd]. rewrite Hd.
    assert (Hres : match config !! key with
                   | Some VUndefined | None => Some d
                   | Some v => Some v
                   end = Some d) by (by destruct Hmiss as [-> | ->]).
    rewrite Hres. cbn. split; [reflexivity|].
    by apply (genDefaultConfig_v1_defined key).
Qed.

(** X4: the other four registry paths have no v1 default: on a config
    that is neither version 2 nor version 3 and lacks both the path and the
    legacy field, they resolve to [undefined]; so does any path outside the
    registry unless the config has a property named ["undefined"], whose
    value is then returned. *)
Theorem getConfig_v1_unresolved (config : obj) path :
  JS.is_num (JS.prop (VObj config) "version") 3 = false →
  JS.is_num (JS.prop (VObj config) "version") 2 = false →
  Lodash.get (VObj config) path = VUndefined →
  (∀ key, map_get requiredPathsMap path = Some key →
          path ≠ "workspace.journal" → path ≠ "workspace.vaults" →
          path ≠ "commands.lookup" →
          config !! key = None →
          (DConfig.getConfig config path).2 = VUndefined)
  ∧ (map_get requiredPathsMap path = None →
     (DConfig.getConfig config path).2 = JS.prop (VObj config) "undefined").
Proof.
  intros H3 H2 Hget.
  rewrite (getConfig_legacy_branch config path Hget H3 H2).
  unfold DConfig.getProp. cbn [snd JS.prop]. rewrite lookup_defaults. split.
  - intros key Hkey Hj Hv Hl Hmiss. rewrite Hkey.
    change (JS.toKey (Some key)) with key. rewrite Hmiss.
    assert (Hnone : DConfig.genDefaultConfig None !! key = None).
    { apply map_get_In in Hkey. cbn in Hkey.
      repeat (destruct Hkey as [[= <- <-] | Hkey]; [first [done | reflexivity]|]).
      destruct Hkey. }
    by rewrite Hnone.
  - intros Hnone. rewrite Hnone. change (JS.toKey None) with "undefined".
    assert (Hg : DConfig.genDefaultConfig None !! "undefined" = None) by reflexivity.
    rewrite Hg. by destruct (config !! "undefined") as [[]|].
Qed.

(** X5: the write of [getProp] happens once: a second [getProp] (for any
    key) leaves the filled config as it is, and asking the same key again
    gives the same value. *)
Theorem getProp_idempotent (config : obj) key key' :
  let '(config1, v1) := DConfig.getProp config key in
  (DConfig.getProp config1 key').1 = config1
  ∧ DConfig.getProp config1 key = (config1, v1).
Proof.
  unfold DConfig.getProp. by rewrite defaults_idempotent.
Qed.

(** X6: [getProp] returns the value the config defines for the key, also
    when it is falsy ([false], [0], [""], [null]); and for a key of
    [genDefaultConfig()] it never returns [undefined]. *)
Theorem getProp_value (config : obj) key :
  (∀ v, config !! key = Some v → v ≠ VUndefined →
        (DConfig.getProp config key).2 = v)
  ∧ (is_Some (DConfig.genDefaultConfig None !! key) →
     (DConfig.getProp config key).2 ≠ VUndefined).
Proof.
  unfold DConfig.getProp. cbn [snd JS.prop]. rewrite lookup_defaults. split.
  - intros v Hv Hdef. rewrite Hv. by destruct v.
  - intros [d Hd]. rewrite Hd.
    pose proof (genDefaultConfig_v1_defined key d Hd) as Hdd.
    destruct (config !! key) as [[]|]; cbn; done.
Qed.

End ResolverOnOlderConfigs.

(** ** Defaults *)

Section Defaults.
Context `{Collaborators}.

(** X7: the common block is the same in every version: whatever version
    is asked for, known or not, each field of [common] is in the default
    config with the value [common] gives it. *)
Theorem genDefaultConfig_common (version : option Z) k x :
  DConfig.common !! k = Some x →
  DConfig.genDefaultConfig version !! k = Some x.
Proof.
  intros Hk. apply elem_of_map_to_list in Hk. revert Hk.
  vm_compute (map_to_list _). intros Hk.
  unfold DConfig.genDefaultConfig.
  destruct (_ =? 3)%Z; [|destruct (_ =? 2)%Z];
    repeat (apply elem_of_cons in Hk as [[= -> ->] | Hk]; [reflexivity|]);
    by apply elem_of_nil in Hk.
Qed.

(** X8: a version other than 2 and 3 gets the v1 default, whose [version]
    field is 1 and not the requested number; and the fields a version
    dropped are not in its default: the v3 default has no root-level
    [vaults], [journal], [scratch], [lookup] or
    [lookupConfirmVaultOnCreate], the v2 default no [lookup] or
    [lookupConfirmVaultOnCreate] and no [workspace]. *)
Theorem genDefaultConfig_versions :
  (∀ v : Z, v ≠ 2%Z → v ≠ 3%Z →
     DConfig.genDefaultConfig (Some v) = DConfig.genDefaultConfig (Some 1%Z)
     ∧ DConfig.genDefaultConfig (Some v) !! "version" = Some (VNum 1))
  ∧ (∀ k, k ∈ ["vaults"; "journal"; "scratch"; "lookup"; "lookupConfirmVaultOnCreate"] →
          DConfig.genDefaultConfig (Some 3%Z) !! k = None)
  ∧ (∀ k, k ∈ ["lookup"; "lookupConfirmVaultOnCreate"; "workspace"] →
          DConfig.genDefaultConfig (Some 2%Z) !! k = None).
Proof.
  split; [|split].
  - intros v H2 H3. unfold DConfig.genDefaultConfig.
    apply Z.eqb_neq in H2, H3. rewrite H2, H3. split; reflexivity.
  - intros k Hk.
    repeat (apply elem_of_cons in Hk as [-> | Hk]; [reflexivity|]).
    by apply elem_of_nil in Hk.
  - intros k Hk.
    repeat (apply elem_of_cons in Hk as [-> | Hk]; [reflexivity|]).
    by apply elem_of_nil in Hk.
Qed.

End Defaults.

(** X9: [DConfig.defaults] touches one field only, the remote-vault flag of
    the config's version: a value the config defines for it is kept, a
    missing one becomes [true], every other field is as before, and a
    second call changes nothing. *)
Theorem defaults_remote_vault_flag (config : obj) :
  let flag :=
    if JS.is_num (JS.prop (VObj config) "version") 3
    then "enableRemoteVaultInit" else "initializeRemoteVaults" in
  (∀ k, k ≠ flag → DConfig.defaults config !! k = config !! k)
  ∧ (∀ v, config !! flag = Some v → v ≠ VUndefined →
          DConfig.defaults config !! flag = Some v)
  ∧ (config !! flag = None ∨ config !! flag = Some VUndefined →
     DConfig.defaults config !! flag = Some (VBool true))
  ∧ DConfig.defaults (DConfig.defaults config) = DConfig.defaults config.
Proof.
  intros flag.
  assert (Hlk : ∀ k, DConfig.defaults config !! k =
    match config !! k with
    | Some VUndefined | None => if decide (k = flag) then Some (VBool true) else config !! k
    | Some v => Some v
    end).
  { intros k. unfold DConfig.defaults, flag. rewrite lookup_defaults.
    destruct (JS.is_num _ 3); rewrite lookup_singleton;
      destruct (config !! k) as [[]|]; repeat case_decide; congruence. }
  split; [|split; [|split]].
  - intros k Hk. rewrite Hlk. rewrite decide_False by done.
    by destruct (config !! k) as [[]|].
  - intros v Hv Hdef. rewrite Hlk, Hv. by destruct v.
  - intros Hmiss. rewrite Hlk. rewrite decide_True by done.
    by destruct Hmiss as [-> | ->].
  - assert (Hver : JS.prop (VObj (DConfig.defaults config)) "version"
                   = JS.prop (VObj config) "version").
    { cbn [JS.prop]. rewrite Hlk. rewrite decide_False.
      - by destruct (config !! "version") as [[]|].
      - unfold flag. by destruct (JS.is_num _ 3). }
    unfold DConfig.defaults at 1. rewrite Hver.
    unfold DConfig.defaults. apply defaults_idempotent.
Qed.


(** ** Adding and removing hooks *)

Section HookEdits.
Implicit Types (config : obj) (hooks : value) (l : list value) (h : obj).

(** [_.get] with a default, for a path without dots, on an object. *)
Lemma get_default_plain h k d :
  Lodash.has_dot k = false →
  Lodash.get_default (VObj h) k d
  = if Lodash.isUndefined (JS.prop (VObj h) k) then d else JS.prop (VObj h) k.
Proof.
  intros Hk. unfold Lodash.get_default, Lodash.baseGet, Lodash.castPath.
  rewrite Hk. reflexivity.
Qed.

Lemma without_id_remove hookId l :
  filter (λ e, negb (Lodash.matches_id hookId e) = true) l = HookUtils.without_id hookId l.
Proof.
  unfold HookUtils.without_id. apply list_filter_iff.
  intros e. by destruct (Lodash.matches_id hookId e).
Qed.

(** What [removeFromConfig] returns when the container can take the
    assignment: the stored [onCreate] list, the version and every field
    outside the container. *)
Lemma removeFromConfig_ok config hookType hookId :
  HookUtils.container_ok config = true →
  ∃ config' h',
    HookUtils.removeFromConfig config hookType hookId = Ok config'
    ∧ HookUtils.hooksConfig_of config' = VObj h'
    ∧ h' !! "onCreate"
      = Some (VArr (tail (HookUtils.with_id hookId (HookUtils.hookList config hookType))))
    ∧ JS.prop (VObj config') "version" = JS.prop (VObj config) "version"
    ∧ (∀ k, k ≠ HookUtils.container_field config → config' !! k = config !! k).
Proof.
  unfold HookUtils.container_ok, HookUtils.removeFromConfig, HookUtils.hookList,
    HookUtils.hooksConfig_of, HookUtils.container_field.
  destruct (JS.is_num (JS.prop (VObj config) "version") 3) eqn:Hv.
  - destruct (JS.prop (VObj config) "workspace") as [| | | | | |ws] eqn:Hws;
      try discriminate.
    intros Hok.
    pose proof (removeFromHooks_stored (JS.prop (VObj ws) "hooks") hookType hookId) as Hst.
    destruct (removeFromHooks_container _ hookType hookId Hok) as [h Hh].
    destruct (HookUtils.removeFromHooks _ hookType hookId) as [container onCreate].
    cbn [fst snd] in Hst, Hh. subst container onCreate.
    cbn [HookUtils.assign_onCreate]. do 2 eexists. split; [reflexivity|].
    rewrite prop_insert_ne by done. rewrite Hv.
    rewrite !prop_insert_eq. split; [reflexivity|].
    split; [by rewrite lookup_insert_eq|]. split; [reflexivity|].
    intros k Hk. by rewrite lookup_insert_ne.
  - intros Hok.
    pose proof (removeFromHooks_stored (JS.prop (VObj config) "hooks") hookType hookId) as Hst.
    destruct (removeFromHooks_container _ hookType hookId Hok) as [h Hh].
    destruct (HookUtils.removeFromHooks _ hookType hookId) as [container onCreate].
    cbn [fst snd] in Hst, Hh. subst container onCreate.
    cbn [HookUtils.assign_onCreate]. do 2 eexists. split; [reflexivity|].
    rewrite prop_insert_ne by done. rewrite Hv.
    rewrite !prop_insert_eq. split; [reflexivity|].
    split; [by rewrite lookup_insert_eq|]. split; [reflexivity|].
    intros k Hk. by rewrite lookup_insert_ne.
Qed.

(** A config whose container is an object with an [onCreate] array. *)
Lemma stored_list_facts config h l :
  HookUtils.hooksConfig_of config = VObj h →
  h !! "onCreate" = Some (VArr l) →
  HookUtils.container_ok config = true
  ∧ HookUtils.hookList config "onCreate" = l
  ∧ HookUtils.storedOnCreate config = VArr l.
Proof.
  unfold HookUtils.hooksConfig_of, HookUtils.container_ok, HookUtils.hookList,
    HookUtils.storedOnCreate.
  destruct (JS.is_num (JS.prop (VObj config) "version") 3).
  - destruct (JS.prop (VObj config) "workspace") as [| | | |s|a|ws];
      try (compute; discriminate).
    intros Hh Hl. rewrite Hh. rewrite get_default_plain by reflexivity.
      cbn [JS.prop]. rewrite Hl. done.
  - intros Hh Hl. rewrite Hh. rewrite get_default_plain by reflexivity.
    cbn [JS.prop]. rewrite Hl. done.
Qed.

(** X11: [removeFromConfig] writes to the hook container only: every
    other top-level field and the version are as before, and the config it
    returns can take further edits; its [onCreate] list is the list a later
    call reads. *)
Theorem removeFromConfig_frame config hookType hookId :
  HookUtils.container_ok config = true →
  ∃ config',
    HookUtils.removeFromConfig config hookType hookId = Ok config'
    ∧ (∀ k, k ≠ HookUtils.container_field config → config' !! k = config !! k)
    ∧ JS.prop (VObj config') "version" = JS.prop (VObj config) "version"
    ∧ HookUtils.container_ok config' = true
    ∧ HookUtils.hookList config' "onCreate"
      = tail (HookUtils.with_id hookId (HookUtils.hookList config hookType)).
Proof.
  intros Hok.
  destruct (removeFromConfig_ok config hookType hookId Hok)
    as (config' & h' & Hret & Hh & Hl & Hv & Hframe).
  destruct (stored_list_facts config' h' _ Hh Hl) as (Hok' & Hlist & _).
  exists config'. done.
Qed.

(** X12: removal is not idempotent: a second [removeFromConfig] with the
    same id deletes one more entry of that id, so of [n] entries
    registered under the id, [n - 2] are left after two calls. *)
Theorem removeFromConfig_twice config hookId :
  HookUtils.container_ok config = true →
  ∃ config1 config2,
    HookUtils.removeFromConfig config "onCreate" hookId = Ok config1
    ∧ HookUtils.removeFromConfig config1 "onCreate" hookId = Ok config2
    ∧ HookUtils.storedOnCreate config2
      = VArr (tail (tail (HookUtils.with_id hookId (HookUtils.hookList config "onCreate")))).
Proof.
  intros Hok.
  destruct (removeFromConfig_ok config "onCreate" hookId Hok)
    as (config1 & h1 & Hret1 & Hh1 & Hl1 & _).
  destruct (stored_list_facts config1 h1 _ Hh1 Hl1) as (Hok1 & Hlist1 & _).
  destruct (removeFromConfig_ok config1 "onCreate" hookId Hok1)
    as (config2 & h2 & Hret2 & Hh2 & Hl2 & _).
  destruct (stored_list_facts config2 h2 _ Hh2 Hl2) as (_ & _ & Hst2).
  exists config1, config2. split; [exact Hret1|]. split; [exact Hret2|].
  rewrite Hst2, Hlist1. do 2 f_equal.
  set (m := HookUtils.with_id hookId (HookUtils.hookList config "onCreate")).
  pose proof (with_id_all hookId (HookUtils.hookList config "onCreate")) as Hall.
  fold m in Hall. apply Forall_tail in Hall.
  unfold HookUtils.with_id. clear -Hall.
  induction Hall as [|e r He _ IH]; [reflexivity|].
  rewrite filter_cons_True by done. by rewrite IH.
Qed.

(** The container as [addToHooks] leaves it. *)
Lemma addToHooks_ok hooks hookType (hookEntry : obj) l :
  (match hooks with VObj _ => true | _ => negb (JS.truthy hooks) end) = true →
  Lodash.get_default hooks hookType (VArr []) = VArr l →
  ∃ h' : obj,
    HookUtils.addToHooks hooks hookType hookEntry = Ok (VObj h')
    ∧ h' !! "onCreate" = Some (VArr (l ++ [VObj hookEntry]))
    ∧ (∀ k, k ≠ "onCreate" → h' !! k = match hooks with VObj h => h !! k | _ => None end).
Proof.
  intros Hok Hget. unfold HookUtils.addToHooks. rewrite Hget.
  cbn [HookUtils.concat_entry].
  destruct hooks as [| | | | | |h]; cbn [negb] in Hok;
    try (apply negb_true_iff in Hok; rewrite Hok);
    cbn [JS.truthy HookUtils.assign_onCreate_value]; eexists;
    (split; [reflexivity|]); (split; [by rewrite lookup_insert_eq|]);
    intros k Hk; rewrite lookup_insert_ne by done; try reflexivity;
    unfold JS.literal; cbn [list_to_map foldr];
    rewrite lookup_insert_ne by done; apply lookup_empty.
Qed.

Lemma addToConfig_ok config hookType (hookEntry : obj) l :
  HookUtils.container_ok config = true →
  Lodash.get_default (HookUtils.hooksConfig_of config) hookType (VArr []) = VArr l →
  ∃ config' h',
    HookUtils.addToConfig config hookType hookEntry = Ok config'
    ∧ HookUtils.hooksConfig_of config' = VObj h'
    ∧ h' !! "onCreate" = Some (VArr (l ++ [VObj hookEntry]))
    ∧ (∀ k, k ≠ HookUtils.container_field config → config' !! k = config !! k).
Proof.
  unfold HookUtils.container_ok, HookUtils.addToConfig, HookUtils.hooksConfig_of,
    HookUtils.container_field.
  destruct (JS.is_num (JS.prop (VObj config) "version") 3) eqn:Hv.
  - destruct (JS.prop (VObj config) "workspace") as [| | | | | |ws] eqn:Hws;
      try discriminate.
    intros Hok Hget.
    destruct (addToHooks_ok _ hookType hookEntry l Hok Hget) as (h' & -> & Hl & _).
    do 2 eexists. split; [reflexivity|].
    rewrite prop_insert_ne by done. rewrite Hv. rewrite !prop_insert_eq.
    split; [reflexivity|]. split; [exact Hl|].
    intros k Hk. by rewrite lookup_insert_ne.
  - intros Hok Hget.
    destruct (addToHooks_ok _ hookType hookEntry l Hok Hget) as (h' & -> & Hl & _).
    do 2 eexists. split; [reflexivity|].
    rewrite prop_insert_ne by done. rewrite Hv. rewrite !prop_insert_eq.
    split; [reflexivity|]. split; [exact Hl|].
    intros k Hk. by rewrite lookup_insert_ne.
Qed.

(** X13: when the container can take the assignment and the list read
    for [hookType] is an array [l] (or missing, [l = []]), [addToConfig]
    returns, and stores [l] with the entry appended as the [onCreate] list,
    whatever [hookType] is; no top-level field outside the container
    changes, and the result can take further edits. *)
Theorem addToConfig_appends config hookType (hookEntry : obj) l :
  HookUtils.container_ok config = true →
  Lodash.get_default (HookUtils.hooksConfig_of config) hookType (VArr []) = VArr l →
  ∃ config',
    HookUtils.addToConfig config hookType hookEntry = Ok config'
    ∧ HookUtils.storedOnCreate config' = VArr (l ++ [VObj hookEntry])
    ∧ HookUtils.container_ok config' = true
    ∧ (∀ k, k ≠ HookUtils.container_field config → config' !! k = config !! k).
Proof.
  intros Hok Hget.
  destruct (addToConfig_ok config hookType hookEntry l Hok Hget)
    as (config' & h' & Hret & Hh & Hl & Hframe).
  destruct (stored_list_facts config' h' _ Hh Hl) as (Hok' & _ & Hst).
  exists config'. done.
Qed.

(** X14: registering a hook and then removing it by its id leaves the
    entries that already had that id, minus the first, followed by the new
    entry; when the id was fresh the stored list is empty: every hook that
    was registered before is gone. *)
Theorem add_then_remove config (hookEntry : obj) hookId l :
  HookUtils.container_ok config = true →
  Lodash.get_default (HookUtils.hooksConfig_of config) "onCreate" (VArr []) = VArr l →
  hookEntry !! "id" = Some (VStr hookId) →
  ∃ config1 config2,
    HookUtils.addToConfig config "onCreate" hookEntry = Ok config1
    ∧ HookUtils.removeFromConfig config1 "onCreate" hookId = Ok config2
    ∧ HookUtils.storedOnCreate config2
      = VArr (tail (HookUtils.with_id hookId l ++ [VObj hookEntry]))
    ∧ (HookUtils.with_id hookId l = [] → HookUtils.storedOnCreate config2 = VArr []).
Proof.
  intros Hok Hget Hid.
  destruct (addToConfig_ok config "onCreate" hookEntry l Hok Hget)
    as (config1 & h1 & Hret1 & Hh1 & Hl1 & _).
  destruct (stored_list_facts config1 h1 _ Hh1 Hl1) as (Hok1 & Hlist1 & _).
  destruct (removeFromConfig_ok config1 "onCreate" hookId Hok1)
    as (config2 & h2 & Hret2 & Hh2 & Hl2 & _).
  destruct (stored_list_facts config2 h2 _ Hh2 Hl2) as (_ & _ & Hst2).
  assert (Hwith : HookUtils.with_id hookId (l ++ [VObj hookEntry])%list
                  = (HookUtils.with_id hookId l ++ [VObj hookEntry])%list).
  { unfold HookUtils.with_id. rewrite filter_app. f_equal.
    rewrite filter_cons_True; [by rewrite filter_nil|].
    cbn [Lodash.matches_id]. rewrite Hid. cbn. apply String.eqb_refl. }
  exists config1, config2. split; [exact Hret1|]. split; [exact Hret2|].
  rewrite Hst2, Hlist1, Hwith. split; [reflexivity|].
  intros ->. reflexivity.
Qed.

(** The container reached through [hooksConfig_of] is an object only in
    these two ways. *)
Lemma hooksConfig_object config h :
  HookUtils.hooksConfig_of config = VObj h →
  (JS.is_num (JS.prop (VObj config) "version") 3 = true
   ∧ ∃ ws : obj, JS.prop (VObj config) "workspace" = VObj ws
                 ∧ JS.prop (VObj ws) "hooks" = VObj h)
  ∨ (JS.is_num (JS.prop (VObj config) "version") 3 = false
     ∧ JS.prop (VObj config) "hooks" = VObj h).
Proof.
  unfold HookUtils.hooksConfig_of.
  destruct (JS.is_num (JS.prop (VObj config) "version") 3); [|by right].
  destruct (JS.prop (VObj config) "workspace") as [| | | |s|a|ws];
    try (compute; discriminate).
  intros Hh. left. eauto.
Qed.

Lemma removeFromHooks_array h hookType hookId l :
  Lodash.has_dot hookType = false →
  h !! hookType = Some (VArr l) →
  HookUtils.removeFromHooks (VObj h) hookType hookId
  = (VObj (<[hookType := VArr (HookUtils.without_id hookId l)]> h),
     tail (HookUtils.with_id hookId l)).
Proof.
  intros Hdot Hl. unfold HookUtils.removeFromHooks, Lodash.get.
  assert (Hp : JS.prop (VObj h) hookType = VArr l) by (cbn [JS.prop]; by rewrite Hl).
  rewrite !get_default_plain by done. rewrite Hp.
  cbn [Lodash.isUndefined Lodash.remove JS.truthy negb andb].
  unfold Lodash.castPath. rewrite Hdot. cbn [negb orb HookUtils.put]. rewrite Hl.
  rewrite without_id_remove. f_equal.
  apply splice_findIndex_tail, with_id_all.
Qed.

(** X15: for a hook type other than ["onCreate"], [removeFromConfig] takes
    the matching entries out of the list stored under that hook type (the
    array is edited in place), and overwrites the [onCreate] list with the
    removed entries minus the first. *)
Theorem removeFromConfig_other_hookType config h hookType hookId l :
  HookUtils.hooksConfig_of config = VObj h →
  Lodash.has_dot hookType = false →
  hookType ≠ "onCreate" →
  h !! hookType = Some (VArr l) →
  ∃ config' h',
    HookUtils.removeFromConfig config hookType hookId = Ok config'
    ∧ HookUtils.hooksConfig_of config' = VObj h'
    ∧ h' !! hookType = Some (VArr (HookUtils.without_id hookId l))
    ∧ h' !! "onCreate" = Some (VArr (tail (HookUtils.with_id hookId l)))
    ∧ (∀ k, k ≠ hookType → k ≠ "onCreate" → h' !! k = h !! k).
Proof.
  intros Hh Hdot Hne Hl.
  unfold HookUtils.removeFromConfig, HookUtils.hooksConfig_of.
  destruct (hooksConfig_object config h Hh) as [(Hv & ws & Hws & Hhooks) | (Hv & Hhooks)];
    rewrite Hv; rewrite ?Hws, Hhooks;
    rewrite (removeFromHooks_array h hookType hookId l Hdot Hl);
    cbn [HookUtils.assign_onCreate]; do 2 eexists; (split; [reflexivity|]);
    rewrite prop_insert_ne by done; rewrite Hv; rewrite !prop_insert_eq;
    (split; [reflexivity|]); repeat split.
  - rewrite lookup_insert_ne by done. by rewrite lookup_insert_eq.
  - by rewrite lookup_insert_eq.
  - intros k Hk1 Hk2. by rewrite !lookup_insert_ne.
  - rewrite lookup_insert_ne by done. by rewrite lookup_insert_eq.
  - by rewrite lookup_insert_eq.
  - intros k Hk1 Hk2. by rewrite !lookup_insert_ne.
Qed.

(** X16: on a version-3 config whose [workspace] is missing (or [null]),
    both [addToConfig] and [removeFromConfig] throw a [TypeError] instead of
    creating the container. *)
Theorem hooks_v3_without_workspace config hookType (hookEntry : obj) hookId :
  JS.is_num (JS.prop (VObj config) "version") 3 = true →
  JS.nullish (JS.prop (VObj config) "workspace") = true →
  HookUtils.addToConfig config hookType hookEntry = Throw TypeError
  ∧ HookUtils.removeFromConfig config hookType hookId = Throw TypeError.
Proof.
  intros Hv Hws. unfold HookUtils.addToConfig, HookUtils.removeFromConfig.
  rewrite Hv. by destruct (JS.prop (VObj config) "workspace").
Qed.

End HookEdits.

(** ** The normalizer's outcomes *)

Section NormalizerOutcomes.
Implicit Types (w : world) (config : obj).

(** The outcome of [cleanSiteConfig], in terms of the fields of the config
    it is given. *)
Lemma cleanSiteConfig_cases w config :
  let siteRootDir := JS.prop (VObj config) "siteRootDir" in
  let siteHierarchies := JS.prop (VObj config) "siteHierarchies" in
  let siteUrl := JS.prop (VObj config) "siteUrl" in
  let SITE_URL := DConfig.env_value (env_SITE_URL w) in
  let out := Lodash.defaults config DConfig.siteDefaults in
  let resolved :=
    if negb (JS.truthy (if JS.truthy SITE_URL then SITE_URL else siteUrl))
       && String.eqb (stage w) "dev"
    then VStr "https://foo"
    else if JS.truthy SITE_URL then SITE_URL else siteUrl in
  (DConfig.cleanSiteConfig w config).2
  = if negb (JS.truthy siteRootDir) then Throw (ThrownString "siteRootDir is undefined")
    else if negb (JS.truthy resolved)
    then Throw (DendronError INVALID_CONFIG DConfig.siteUrl_message)
    else if (Lodash.size siteHierarchies <? 1)%nat
    then Throw (DendronError INVALID_CONFIG
                  "siteHiearchies must have at least one hiearchy")
    else Ok (<["siteUrl" := resolved]>
               (<["siteIndex" := DConfig.getSiteIndex out]> out)).
Proof.
  intros siteRootDir siteHierarchies siteUrl SITE_URL out resolved.
  unfold DConfig.cleanSiteConfig. cbn zeta.
  rewrite !siteDefaults_frame by reflexivity.
  fold siteRootDir siteHierarchies siteUrl SITE_URL out resolved.
  destruct (negb (JS.truthy siteRootDir)); [reflexivity|].
  destruct (negb (JS.truthy resolved)); [reflexivity|].
  by destruct (_ <? 1)%nat.
Qed.

(** X17: a missing (falsy) [siteRootDir] is reported by throwing the plain
    string ["siteRootDir is undefined"], not a structured error, and before
    any other check; that string is thrown in no other case.  When both
    the site URL cannot be resolved and there is no hierarchy, the error is
    the one about [siteUrl]. *)
Theorem cleanSiteConfig_siteRootDir w config :
  ((DConfig.cleanSiteConfig w config).2 = Throw (ThrownString "siteRootDir is undefined")
   ↔ JS.truthy (JS.prop (VObj config) "siteRootDir") = false)
  ∧ (JS.truthy (JS.prop (VObj config) "siteRootDir") = true →
     JS.truthy (JS.prop (VObj config) "siteUrl") = false →
     JS.truthy (DConfig.env_value (env_SITE_URL w)) = false →
     stage w ≠ "dev" →
     (DConfig.cleanSiteConfig w config).2
     = Throw (DendronError INVALID_CONFIG DConfig.siteUrl_message)).
Proof.
  rewrite cleanSiteConfig_cases. cbn zeta. split.
  - destruct (JS.truthy (JS.prop (VObj config) "siteRootDir")); cbn [negb].
    + split; [|discriminate].
      destruct (negb (JS.truthy _)); [discriminate|].
      by destruct (_ <? 1)%nat.
    + done.
  - intros Hroot Hurl Henv Hstage. rewrite Hroot, Henv, Hurl. cbn [negb andb].
    apply String.eqb_neq in Hstage. rewrite Hstage. by rewrite Hurl.
Qed.

(** X18: [cleanSiteConfig] returns exactly when [siteRootDir] is present,
    there is at least one hierarchy, and a site URL is available; the
    [siteUrl] of the result is truthy and is, in this order of preference:
    a non-empty [SITE_URL], the config's [siteUrl], the placeholder
    ["https://foo"] of the dev stage. *)
Theorem cleanSiteConfig_siteUrl w config :
  let siteUrl := JS.prop (VObj config) "siteUrl" in
  let SITE_URL := DConfig.env_value (env_SITE_URL w) in
  ((∃ out, (DConfig.cleanSiteConfig w config).2 = Ok out)
   ↔ JS.truthy (JS.prop (VObj config) "siteRootDir") = true
     ∧ (1 ≤ Lodash.size (JS.prop (VObj config) "siteHierarchies"))%nat
     ∧ (JS.truthy siteUrl = true ∨ JS.truthy SITE_URL = true ∨ stage w = "dev"))
  ∧ (∀ out, (DConfig.cleanSiteConfig w config).2 = Ok out →
       JS.truthy (JS.prop (VObj out) "siteUrl") = true
       ∧ (JS.truthy SITE_URL = true → JS.prop (VObj out) "siteUrl" = SITE_URL)
       ∧ (JS.truthy SITE_URL = false → JS.truthy siteUrl = true →
          JS.prop (VObj out) "siteUrl" = siteUrl)
       ∧ (JS.truthy SITE_URL = false → JS.truthy siteUrl = false →
          JS.prop (VObj out) "siteUrl" = VStr "https://foo")).
Proof.
  intros siteUrl SITE_URL.
  rewrite cleanSiteConfig_cases. cbn zeta. fold siteUrl SITE_URL.
  pose proof (resolved_siteUrl_falsy SITE_URL siteUrl (stage w)) as Hfalsy.
  assert (Hvalue :
    (JS.truthy SITE_URL = true →
     (if negb (JS.truthy (if JS.truthy SITE_URL then SITE_URL else siteUrl))
         && String.eqb (stage w) "dev"
      then VStr "https://foo"
      else if JS.truthy SITE_URL then SITE_URL else siteUrl) = SITE_URL)
    ∧ (JS.truthy SITE_URL = false → JS.truthy siteUrl = true →
       (if negb (JS.truthy (if JS.truthy SITE_URL then SITE_URL else siteUrl))
           && String.eqb (stage w) "dev"
        then VStr "https://foo"
        else if JS.truthy SITE_URL then SITE_URL else siteUrl) = siteUrl)
    ∧ (JS.truthy SITE_URL = false → JS.truthy siteUrl = false → stage w = "dev" →
       (if negb (JS.truthy (if JS.truthy SITE_URL then SITE_URL else siteUrl))
           && String.eqb (stage w) "dev"
        then VStr "https://foo"
        else if JS.truthy SITE_URL then SITE_URL else siteUrl) = VStr "https://foo")).
  { split; [|split].
    - intros He. by rewrite !He.
    - intros He Hu. by rewrite !He, !Hu.
    - intros He Hu Hs. rewrite !He, !Hu, Hs. reflexivity. }
  destruct Hvalue as (Henv & Hcfg & Hdev).
  set (resolved := if _ && _ then _ else _) in *.
  destruct (JS.truthy (JS.prop (VObj config) "siteRootDir")); cbn [negb];
    [|split; [split; [intros [? [=]] | intros [[=] _]] | intros ? [=]]].
  destruct (JS.truthy resolved) eqn:Hres; cbn [negb].
  - assert (Havail : JS.truthy siteUrl = true ∨ JS.truthy SITE_URL = true
                     ∨ stage w = "dev").
    { destruct (JS.truthy siteUrl); [by left|].
      destruct (JS.truthy SITE_URL); [by right; left|].
      right; right. destruct (String.eqb_spec (stage w) "dev") as [|Hne]; [done|].
      assert (Hno : true = false) by (by apply Hfalsy). discriminate Hno. }
    destruct (Nat.ltb_spec (Lodash.size (JS.prop (VObj config) "siteHierarchies")) 1)
      as [Hlt | Hge].
    + split; [split; [intros [? [=]] | intros (_ & Hs & _); lia] | intros ? [=]].
    + split; [split; [done | eauto] |].
      intros out [= <-]. rewrite prop_insert_eq. split; [exact Hres|].
      split; [exact Henv|]. split; [exact Hcfg|].
      intros He Hu. apply Hdev; [done..|].
      destruct Havail as [? | [? | ?]]; congruence.
  - destruct (proj1 Hfalsy eq_refl) as (Hu & He & Hs).
    split; [split; [intros [? [=]] | intros (_ & _ & [? | [? | ?]]); congruence]
           | intros ? [=]].
Qed.


End NormalizerOutcomes.

(** ** The store: how the operations compose *)

Lemma spread_idempotent (a : obj) : JS.spread a a = a.
Proof.
  apply map_eq. intros k. rewrite lookup_spread. by destruct (a !! k).
Qed.

Lemma length_append (a b : string) :
  String.length (a ++ b) = (String.length a + String.length b)%nat.
Proof.
  induction a as [|x a IH]; [reflexivity|].
  change (S (String.length (a ++ b)) = S (String.length a + String.length b)).
  by rewrite IH.
Qed.

Lemma append_cancel_l (a b c : string) : a ++ b = a ++ c → b = c.
Proof.
  induction a as [|x a IH]; [done|].
  change (String x (a ++ b) = String x (a ++ c) → b = c).
  intros [= Heq]. by apply IH.
Qed.

Lemma append_cancel_r (a b c : string) : a ++ c = b ++ c → a = b.
Proof.
  revert b. induction a as [|x a IH]; intros [|y b] Heq.
  - reflexivity.
  - apply (f_equal String.length) in Heq.
    rewrite !length_append in Heq. cbn [String.length] in Heq. lia.
  - apply (f_equal String.length) in Heq.
    rewrite !length_append in Heq. cbn [String.length] in Heq. lia.
  - change (String x (a ++ c) = String y (b ++ c)) in Heq.
    injection Heq as -> Heq. f_equal. by apply IH.
Qed.

(** X23: a backup never takes the name of the config file
    ([dendron.yml]), and at one instant two different infixes give two
    different backup names. *)
Theorem backupName_distinct (today infix infix' : string) :
  DConfig.backupName today infix ≠ "dendron.yml"
  ∧ (DConfig.backupName today infix = DConfig.backupName today infix' →
     infix = infix').
Proof.
  unfold DConfig.backupName. cbn [JS.truthy]. split.
  - intros Heq. apply (f_equal String.length) in Heq.
    rewrite !length_append in Heq. cbn [String.length] in Heq. lia.
  - intros Heq. apply append_cancel_l in Heq.
    destruct (String.eqb_spec infix "") as [Hi | Hi];
      destruct (String.eqb_spec infix' "") as [Hi' | Hi']; cbn [negb] in Heq.
    + congruence.
    + apply (f_equal String.length) in Heq. rewrite !length_append in Heq.
      cbn [String.length] in Heq. lia.
    + apply (f_equal String.length) in Heq. rewrite !length_append in Heq.
      cbn [String.length] in Heq. lia.
    + apply append_cancel_r in Heq. by apply append_cancel_r in Heq.
Qed.

Section StoreComposition.
Context `{Collaborators}.

(** X20: on a root without a config file, [getOrCreate] creates the file;
    a second call returns the same config and writes nothing, [getRaw]
    then reads that config, and a later call with other [defaults] still
    returns every field the first call stored. *)
Theorem getOrCreate_idempotent (w : world) root (defaults defaults' : option obj) :
  files w !! DConfig.configPath root = None →
  let '(w1, config1) := DConfig.getOrCreate w root defaults in
  DConfig.getOrCreate w1 root defaults = (w1, config1)
  ∧ DConfig.getRaw w1 root = Ok config1
  ∧ (∀ k v, config1 !! k = Some v →
            (DConfig.getOrCreate w1 root defaults').2 !! k = Some v).
Proof.
  intros Hfile. unfold DConfig.getOrCreate, DConfig.getRaw. rewrite Hfile.
  cbn [files with_files]. rewrite lookup_insert_eq. split; [|split].
  - by rewrite spread_idempotent.
  - reflexivity.
  - intros k v Hk. cbn [snd]. by rewrite lookup_spread, Hk.
Qed.

(** X21: a successful [createBackup] leaves the config file as it was and
    gives the backup the same content; no other file changes, and
    [getRaw] and [getOrCreate] return what they returned before. *)
Theorem createBackup_preserves (w : world) (wsRoot infix : string) (content : obj) :
  files w !! DConfig.configPath wsRoot = Some content →
  ∃ w' backupPath,
    DConfig.createBackup w wsRoot infix = (w', Ok backupPath)
    ∧ files w' !! backupPath = Some content
    ∧ files w' !! DConfig.configPath wsRoot = Some content
    ∧ (∀ p, p ≠ backupPath → files w' !! p = files w !! p)
    ∧ DConfig.getRaw w' wsRoot = DConfig.getRaw w wsRoot
    ∧ (∀ defaults, (DConfig.getOrCreate w' wsRoot defaults).2
                   = (DConfig.getOrCreate w wsRoot defaults).2).
Proof.
  intros Hfile. unfold DConfig.createBackup. rewrite Hfile. do 2 eexists.
  split; [reflexivity|]. cbn [files with_files].
  set (backupPath := path_join wsRoot _).
  assert (Hcfg : <[backupPath := content]> (files w) !! DConfig.configPath wsRoot
                 = Some content).
  { destruct (decide (backupPath = DConfig.configPath wsRoot)) as [<- | Hne].
    - by rewrite lookup_insert_eq.
    - by rewrite lookup_insert_ne. }
  split; [by rewrite lookup_insert_eq|]. split; [exact Hcfg|].
  split; [intros p Hp; by rewrite lookup_insert_ne|].
  unfold DConfig.getRaw, DConfig.getOrCreate. cbn [files with_files].
  rewrite Hcfg, Hfile. done.
Qed.

(** X22: [getRaw] throws on a root without a config file, where
    [getOrCreate] creates one; after [writeConfig], [getRaw] reads back the
    config that was written, and [getOrCreate] returns each of its fields
    and writes nothing. *)
Theorem writeConfig_then_read (w : world) (wsRoot : string) (config : obj) :
  (files w !! DConfig.configPath wsRoot = None →
   DConfig.getRaw w wsRoot = Throw (ENOENT (DConfig.configPath wsRoot)))
  ∧ DConfig.getRaw (DConfig.writeConfig w wsRoot config) wsRoot = Ok config
  ∧ (∀ defaults,
       (DConfig.getOrCreate (DConfig.writeConfig w wsRoot config) wsRoot defaults).1
       = DConfig.writeConfig w wsRoot config
       ∧ ∀ k v, config !! k = Some v →
                (DConfig.getOrCreate (DConfig.writeConfig w wsRoot config) wsRoot defaults).2
                  !! k = Some v).
Proof.
  unfold DConfig.getRaw, DConfig.getOrCreate, DConfig.writeConfig.
  cbn [files with_files]. rewrite lookup_insert_eq. split; [|split].
  - by intros ->.
  - reflexivity.
  - intros defaults. split; [reflexivity|].
    intros k v Hk. cbn [snd]. by rewrite lookup_spread, Hk.
Qed.

End StoreComposition.

(** ** The daily-journal command *)

Section DailyJournal.
Context `{Collaborators}.

(** X24: what the daily-journal command reads as the journal's domain.  On
    a config that is neither version 2 nor 3 and has no [workspace], it is
    the [dailyDomain] of the top-level [journal], or ["daily"] when the
    config has no journal (which is then written into the config).  On a
    version-2 config without [workspace] the access throws, also when the
    config has a top-level [journal]. *)
Theorem dailyJournalDomain_by_version (config : obj) :
  config !! "workspace" = None →
  config !! "workspace.journal" = None →
  (JS.is_num (JS.prop (VObj config) "version") 2 = true →
   CreateDailyJournalCommand.dailyJournalDomain config = (config, Throw TypeError))
  ∧ (JS.is_num (JS.prop (VObj config) "version") 3 = false →
     JS.is_num (JS.prop (VObj config) "version") 2 = false →
     (∀ journal : obj, config !! "journal" = Some (VObj journal) →
        (CreateDailyJournalCommand.dailyJournalDomain config).2
        = Ok (JS.prop (VObj journal) "dailyDomain"))
     ∧ (config !! "journal" = None →
        (CreateDailyJournalCommand.dailyJournalDomain config).2 = Ok (VStr "daily")
        ∧ is_Some ((CreateDailyJournalCommand.dailyJournalDomain config).1 !! "journal"))).
Proof.
  intros Hw Hlit.
  pose proof (get_missing_head config Hw Hlit) as Hget.
  unfold CreateDailyJournalCommand.dailyJournalDomain. split.
  - intros H2.
    assert (H3 : JS.is_num (JS.prop (VObj config) "version") 3 = false)
      by (by apply (is_num_exclusive _ 2 3)).
    unfold DConfig.getConfig, DConfig.isCurrentConfig, CURRENT_CONFIG_VERSION.
    rewrite Hget, H3, H2. reflexivity.
  - intros H3 H2.
    rewrite (getConfig_legacy_branch config _ Hget H3 H2).
    change (JS.toKey (map_get requiredPathsMap "workspace.journal")) with "journal".
    unfold DConfig.getProp.
    assert (Hj : ∀ v, Lodash.defaults config (DConfig.genDefaultConfig None) !! "journal"
                      = Some v →
                 JS.prop (VObj (Lodash.defaults config (DConfig.genDefaultConfig None)))
                   "journal" = v).
    { intros v Hv. cbn [JS.prop]. by rewrite Hv. }
    split.
    + intros journal Hjournal.
      rewrite (Hj (VObj journal)) by (by rewrite lookup_defaults, Hjournal).
      reflexivity.
    + intros Hnone.
      assert (Hd : Lodash.defaults config (DConfig.genDefaultConfig None) !! "journal"
                   = DConfig.genDefaultConfig None !! "journal").
      { rewrite lookup_defaults, Hnone. by destruct (_ !! "journal"). }
      destruct (DConfig.genDefaultConfig None !! "journal") as [d|] eqn:Hgen;
        vm_compute in Hgen; [|discriminate Hgen].
      injection Hgen as <-. rewrite (Hj _ Hd). cbn [JS.nullish snd fst].
      split; [reflexivity|]. rewrite Hd. eauto.
Qed.

End DailyJournal.

(** ** The further properties at concrete inputs *)

Lemma getConfig_v2_fallback_witness :
  DConfig.getConfig (H := sample_collaborators) v2_with_journal "workspace.journal"
  = (v2_with_journal, VUndefined).
Proof.
  apply (proj2 (@getConfig_v2_fallback sample_collaborators v2_with_journal
                  "workspace.journal" eq_refl eq_refl)).
  left; reflexivity.
Defined.

Lemma getConfig_frame_witness :
  (DConfig.getConfig (H := sample_collaborators) v1_with_journal "workspace.vaults").1
    !! "version" = Some (VNum 1)
  ∧ (DConfig.getConfig (H := sample_collaborators) v3_preview_off "workspace.vaults").1
    = v3_preview_off.
Proof.
  split.
  - apply (proj1 (@getConfig_frame sample_collaborators v1_with_journal "workspace.vaults")
             "version" (VNum 1)); [reflexivity | discriminate].
  - apply (proj2 (@getConfig_frame sample_collaborators v3_preview_off "workspace.vaults")).
    right; left; reflexivity.
Defined.

Lemma getConfig_v1_resolves_witness :
  (DConfig.getConfig (H := sample_collaborators) v1_with_journal "workspace.journal").2
  = VObj (JS.literal [ ("name", VStr "j1") ])
  ∧ (DConfig.getConfig (H := sample_collaborators) v1_with_journal "workspace.vaults").2
    ≠ VUndefined.
Proof.
  split.
  - apply (proj1 (@getConfig_v1_resolves sample_collaborators v1_with_journal
                    "workspace.journal" "journal" eq_refl eq_refl eq_refl eq_refl));
      [reflexivity | discriminate].
  - apply (proj2 (@getConfig_v1_resolves sample_collaborators v1_with_journal
                    "workspace.vaults" "vaults" eq_refl eq_refl eq_refl eq_refl));
      [left; reflexivity | right; left; reflexivity].
Defined.

Lemma getConfig_v1_unresolved_witness :
  (DConfig.getConfig (H := sample_collaborators) v1_with_journal "commands.randomNote").2
  = VUndefined
  ∧ (DConfig.getConfig (H := sample_collaborators) v1_with_journal "dev.someUnknownFlag").2
    = JS.prop (VObj v1_with_journal) "undefined".
Proof.
  split.
  - apply (proj1 (@getConfig_v1_unresolved sample_collaborators v1_with_journal
                    "commands.randomNote" eq_refl eq_refl eq_refl) "randomNote");
      [reflexivity | discriminate | discriminate | discriminate | reflexivity].
  - apply (proj2 (@getConfig_v1_unresolved sample_collaborators v1_with_journal
                    "dev.someUnknownFlag" eq_refl eq_refl eq_refl)).
    reflexivity.
Defined.

Lemma getProp_value_witness :
  (DConfig.getProp (H := sample_collaborators) pretty_refs_off "usePrettyRefs").2
  = VBool false
  ∧ (DConfig.getProp (H := sample_collaborators) pretty_refs_off "vaults").2 ≠ VUndefined.
Proof.
  split.
  - apply (proj1 (@getProp_value sample_collaborators pretty_refs_off "usePrettyRefs")
             (VBool false)); [reflexivity | discriminate].
  - apply (proj2 (@getProp_value sample_collaborators pretty_refs_off "vaults")).
    exists (VArr []). reflexivity.
Defined.

Lemma genDefaultConfig_common_witness :
  DConfig.genDefaultConfig (H := sample_collaborators) (Some 3%Z) !! "usePrettyRefs"
  = Some (VBool true).
Proof.
  apply (@genDefaultConfig_common sample_collaborators (Some 3%Z) "usePrettyRefs").
  reflexivity.
Defined.

Lemma genDefaultConfig_versions_witness :
  DConfig.genDefaultConfig (H := sample_collaborators) (Some 7%Z) !! "version"
  = Some (VNum 1)
  ∧ DConfig.genDefaultConfig (H := sample_collaborators) (Some 3%Z) !! "vaults" = None.
Proof.
  split.
  - apply (proj1 (@genDefaultConfig_versions sample_collaborators) 7%Z); discriminate.
  - apply (proj1 (proj2 (@genDefaultConfig_versions sample_collaborators)) "vaults").
    apply list_elem_of_here.
Defined.

Lemma defaults_remote_vault_flag_witness :
  DConfig.defaults v3_preview_off !! "enableRemoteVaultInit" = Some (VBool true)
  ∧ DConfig.defaults v3_preview_off !! "dev" = v3_preview_off !! "dev".
Proof.
  pose proof (defaults_remote_vault_flag v3_preview_off) as Hflag.
  cbv zeta in Hflag. destruct Hflag as (Hframe & _ & Hmissing & _).
  split.
  - apply Hmissing. left; reflexivity.
  - apply Hframe. discriminate.
Defined.


Lemma removeFromConfig_frame_witness :
  ∃ config',
    HookUtils.removeFromConfig v1_three_hooks "onCreate" "a" = Ok config'
    ∧ config' !! "version" = Some (VNum 1)
    ∧ HookUtils.hookList config' "onCreate" = [hook "a"].
Proof.
  destruct (removeFromConfig_frame v1_three_hooks "onCreate" "a" eq_refl)
    as (config' & Hret & Hframe & _ & _ & Hlist).
  exists config'. split; [exact Hret|]. split; [|exact Hlist].
  rewrite Hframe; [reflexivity | discriminate].
Defined.

Lemma removeFromConfig_twice_witness :
  ∃ config1 config2,
    HookUtils.removeFromConfig v1_three_hooks "onCreate" "a" = Ok config1
    ∧ HookUtils.removeFromConfig config1 "onCreate" "a" = Ok config2
    ∧ HookUtils.storedOnCreate config2 = VArr [].
Proof.
  destruct (removeFromConfig_twice v1_three_hooks "a" eq_refl)
    as (config1 & config2 & Hret1 & Hret2 & Hstored).
  exists config1, config2. split; [exact Hret1|]. split; [exact Hret2 | exact Hstored].
Defined.

Lemma addToConfig_appends_witness :
  ∃ config',
    HookUtils.addToConfig v3_with_workspace "onCreate" (hook_entry "h1") = Ok config'
    ∧ HookUtils.storedOnCreate config' = VArr [hook "h1"].
Proof.
  destruct (addToConfig_appends v3_with_workspace "onCreate" (hook_entry "h1") []
              eq_refl eq_refl) as (config' & Hret & Hstored & _).
  exists config'. split; [exact Hret | exact Hstored].
Defined.

Lemma add_then_remove_witness :
  ∃ config1 config2,
    HookUtils.addToConfig v1_two_hooks "onCreate" (hook_entry "c") = Ok config1
    ∧ HookUtils.removeFromConfig config1 "onCreate" "c" = Ok config2
    ∧ HookUtils.storedOnCreate config2 = VArr [].
Proof.
  destruct (add_then_remove v1_two_hooks (hook_entry "c") "c" [hook "a"; hook "b"]
              eq_refl eq_refl eq_refl) as (config1 & config2 & Hret1 & Hret2 & _ & Hfresh).
  exists config1, config2. split; [exact Hret1|]. split; [exact Hret2|].
  apply Hfresh. reflexivity.
Defined.

Lemma removeFromConfig_other_hookType_witness :
  ∃ config' h',
    HookUtils.removeFromConfig v1_two_hook_types "onDelete" "a" = Ok config'
    ∧ HookUtils.hooksConfig_of config' = VObj h'
    ∧ h' !! "onDelete" = Some (VArr [hook "b"])
    ∧ h' !! "onCreate" = Some (VArr []).
Proof.
  destruct (removeFromConfig_other_hookType v1_two_hook_types
              (JS.literal [ ("onCreate", VArr [hook "x"]);
                            ("onDelete", VArr [hook "a"; hook "b"]) ])
              "onDelete" "a" [hook "a"; hook "b"])
    as (config' & h' & Hret & Hh & Htype & Hcreate & _);
    [reflexivity | reflexivity | discriminate | reflexivity |].
  exists config', h'. split; [exact Hret|]. split; [exact Hh|].
  split; [exact Htype | exact Hcreate].
Defined.

Lemma hooks_v3_without_workspace_witness :
  HookUtils.addToConfig v3_preview_off "onCreate" (hook_entry "h1") = Throw TypeError
  ∧ HookUtils.removeFromConfig v3_preview_off "onCreate" "h1" = Throw TypeError.
Proof.
  apply (hooks_v3_without_workspace v3_preview_off "onCreate" (hook_entry "h1") "h1");
    reflexivity.
Defined.

Lemma cleanSiteConfig_siteRootDir_witness :
  (DConfig.cleanSiteConfig empty_world ∅).2 = Throw (ThrownString "siteRootDir is undefined")
  ∧ (DConfig.cleanSiteConfig empty_world site_without_url).2
    = Throw (DendronError INVALID_CONFIG DConfig.siteUrl_message).
Proof.
  split.
  - apply (proj1 (cleanSiteConfig_siteRootDir empty_world ∅)). reflexivity.
  - apply (proj2 (cleanSiteConfig_siteRootDir empty_world site_without_url));
      [reflexivity | reflexivity | reflexivity | discriminate].
Defined.

Lemma cleanSiteConfig_siteUrl_witness :
  ∃ out,
    (DConfig.cleanSiteConfig dev_world site_without_url).2 = Ok out
    ∧ JS.prop (VObj out) "siteUrl" = VStr "https://foo".
Proof.
  pose proof (cleanSiteConfig_siteUrl dev_world site_without_url) as Hurl.
  cbv zeta in Hurl. destruct Hurl as (Hreturns & Hfields).
  destruct (proj2 Hreturns) as [out Hout].
  { split; [reflexivity|]. split; [apply le_n | right; right; reflexivity]. }
  exists out. split; [exact Hout|].
  apply (Hfields out Hout); reflexivity.
Defined.


Lemma getOrCreate_idempotent_witness :
  let '(w1, config1) :=
    DConfig.getOrCreate (H := sample_collaborators) empty_world "/ws" None in
  DConfig.getOrCreate (H := sample_collaborators) w1 "/ws" None = (w1, config1)
  ∧ DConfig.getRaw (H := sample_collaborators) w1 "/ws" = Ok config1
  ∧ (∀ k v, config1 !! k = Some v →
            (DConfig.getOrCreate (H := sample_collaborators) w1 "/ws"
               (Some pretty_refs_off)).2 !! k = Some v).
Proof.
  exact (@getOrCreate_idempotent sample_collaborators empty_world "/ws" None
           (Some pretty_refs_off) eq_refl).
Defined.

Lemma createBackup_preserves_witness :
  ∃ w' backupPath,
    DConfig.createBackup (H := sample_collaborators) world_with_config "/ws" "foo"
    = (w', Ok backupPath)
    ∧ files w' !! backupPath = Some partial_on_disk
    ∧ files w' !! "/ws/dendron.yml" = Some partial_on_disk.
Proof.
  destruct (@createBackup_preserves sample_collaborators world_with_config "/ws" "foo"
              partial_on_disk eq_refl)
    as (w' & backupPath & Hret & Hbackup & Hconfig & _).
  exists w', backupPath. split; [exact Hret|]. split; [exact Hbackup | exact Hconfig].
Defined.

Lemma writeConfig_then_read_witness :
  DConfig.getRaw (H := sample_collaborators) empty_world "/ws"
  = Throw (ENOENT "/ws/dendron.yml")
  ∧ (DConfig.getOrCreate (H := sample_collaborators)
       (DConfig.writeConfig (H := sample_collaborators) empty_world "/ws" pretty_refs_off)
       "/ws" None).2 !! "usePrettyRefs" = Some (VBool false).
Proof.
  split.
  - apply (proj1 (@writeConfig_then_read sample_collaborators empty_world "/ws" ∅)).
    reflexivity.
  - apply (proj2 (proj2 (proj2 (@writeConfig_then_read sample_collaborators empty_world
                                  "/ws" pretty_refs_off)) None)).
    reflexivity.
Defined.

Lemma backupName_distinct_witness :
  DConfig.backupName "2024.01.02.0304056" "foo" ≠ "dendron.yml" ∧ "foo" = "foo".
Proof.
  split.
  - apply (proj1 (backupName_distinct "2024.01.02.0304056" "foo" "foo")).
  - apply (proj2 (backupName_distinct "2024.01.02.0304056" "foo" "foo")). reflexivity.
Defined.

Lemma dailyJournalDomain_by_version_witness :
  CreateDailyJournalCommand.dailyJournalDomain (H := sample_collaborators) v2_with_journal
  = (v2_with_journal, Throw TypeError)
  ∧ (CreateDailyJournalCommand.dailyJournalDomain (H := sample_collaborators)
       (JS.literal [ ("version", VNum 1) ])).2 = Ok (VStr "daily").
Proof.
  split.
  - apply (proj1 (@dailyJournalDomain_by_version sample_collaborators v2_with_journal
                    eq_refl eq_refl)).
    reflexivity.
  - apply (proj2 (@dailyJournalDomain_by_version sample_collaborators
                    (JS.literal [ ("version", VNum 1) ]) eq_refl eq_refl));
      reflexivity.
Defined.
